(** * xml-to-excel: the SpreadsheetML reader of [parse_excel_xml]

    A shallow embedding of [src/xml-to-excel.py].  The file is organised as
    the Python program is:

    - [Py]: the part of the Python runtime the program relies on
      (exceptions, truthiness, [int], [float], [str], [in], [split]);
    - [ET]: the [xml.etree.ElementTree] elements the program walks
      ([get], [find], [findall] with a [.//tag] path);
    - [Conv]: [parse_excel_xml] itself, loop by loop, and the command
      [main];
    - [Samples]: a few small documents.

    The second part proves the properties of the converter: how a cell
    extends its row, how a text is converted by its declared type, which
    rows are kept, that the grid is rectangular, which sheets are made and
    what a run reports, and which errors the normalizer can raise.  The
    third part adds what the whole run and the command keep: where the
    sheets come from and how they are named, what one error does to a
    run, how a row is laid out, and what the grid and the header hold.

    A Python string is a Rocq string, one character per code point (the
    code points below 256); a Python integer is a [Z]; a Python float is
    an IEEE 754 binary64 value ([spec_float] with [prec = 53] and
    [emax = 1024]). *)

From Stdlib Require Import ZArith Ascii String DecimalString.
From Stdlib Require Import Floats.SpecFloat.
From Stdlib Require DecimalPos DecimalZ.
From stdpp Require Import base option list strings gmap.
From Equations Require Import Equations.

Set Warnings "-register-all".
Unset Equations With Funext.

Local Open Scope string_scope.
Local Open Scope list_scope.
Local Open Scope Z_scope.

(** ** The Python runtime *)

Module Py.

(** *** Exceptions and results

    An exception is kept as data: the first two are the [ValueError]s of
    the built-ins [int] and [float] with the offending text ([int] raises
    its for a text that is no integer literal and for one that has too
    many digits; the message, which tells the two apart, is not kept);
    [Other] is any other exception (of the runtime, of the XML parser, of
    the spreadsheet writer) with its class name and message. *)

Inductive exn : Type :=
  | InvalidIntLiteral (s : string)
  | InvalidFloatLiteral (s : string)
  | Other (class msg : string).

Definition exn_class (e : exn) : string :=
  match e with
  | InvalidIntLiteral _ => "ValueError"
  | InvalidFloatLiteral _ => "ValueError"
  | Other c _ => c
  end.

Inductive result (A : Type) : Type :=
  | Ok (a : A)
  | Raise (e : exn).
Arguments Ok {A} a.
Arguments Raise {A} e.

#[global] Instance result_ret : MRet result := fun A a => Ok a.
#[global] Instance result_bind : MBind result := fun A B f m =>
  match m with
  | Ok a => f a
  | Raise e => Raise e
  end.
#[global] Instance result_fmap : FMap result := fun A B f m =>
  match m with
  | Ok a => Ok (f a)
  | Raise e => Raise e
  end.

(** [for x in xs: st = body st x], where the body may raise. *)
Fixpoint for_each {S A : Type} (body : S -> A -> result S) (st : S) (xs : list A)
  : result S :=
  match xs with
  | [] => Ok st
  | x :: xs' => st' ← body st x; for_each body st' xs'
  end.

(** [try: m  except (ValueError, TypeError): handler] *)
Definition try_except_value_type {A : Type} (m : result A) (handler : A) : result A :=
  match m with
  | Ok a => Ok a
  | Raise e =>
      if bool_decide (exn_class e = "ValueError") || bool_decide (exn_class e = "TypeError")
      then Ok handler
      else Raise e
  end.

(** *** Values

    A cell value is a [str] or a [float]. *)

Inductive value : Type :=
  | VStr (s : string)
  | VFloat (f : spec_float).

Definition float_zero : spec_float := S754_zero false.

(** Truth value testing: a string is true when it is not empty, a float
    when it is not a zero (of either sign; a NaN is true). *)
Definition str_truthy (s : string) : bool :=
  match s with
  | EmptyString => false
  | String _ _ => true
  end.

Definition float_truthy (f : spec_float) : bool :=
  match f with
  | S754_zero _ => false
  | _ => true
  end.

Definition truthy (v : value) : bool :=
  match v with
  | VStr s => str_truthy s
  | VFloat f => float_truthy f
  end.

(** [any(xs)] over values. *)
Definition any (xs : list value) : bool := existsb truthy xs.

(** *** Dictionaries

    A [dict] keeps its keys in the order of their first insertion;
    [d[k] = v] replaces the value of a key that is there, in place. *)
Fixpoint dict_set {V : Type} (k : string) (v : V) (d : list (string * V))
  : list (string * V) :=
  match d with
  | [] => [(k, v)]
  | (k', v') :: d' =>
      if bool_decide (k' = k) then (k, v) :: d' else (k', v') :: dict_set k v d'
  end.

(** *** Characters *)

Definition chars (s : string) : list ascii := list_ascii_of_string s.
Definition of_chars (l : list ascii) : string := string_of_list_ascii l.

Definition code (c : ascii) : nat := nat_of_ascii c.

(** White space as [int] and [float] strip it: TAB, LF, VT, FF, CR and the
    space, and the two spaces above DEL, NEL (133) and NBSP (160), which
    both built-ins turn into a space first. *)
Definition is_space (c : ascii) : bool :=
  ((9 <=? code c) && (code c <=? 13) || (code c =? 32)
   || (code c =? 133) || (code c =? 160))%nat.

Definition is_digit (c : ascii) : bool :=
  ((48 <=? code c) && (code c <=? 57))%nat.

Definition digit_val (c : ascii) : Z := Z.of_nat (code c) - 48.

Definition lower (c : ascii) : ascii :=
  if ((65 <=? code c) && (code c <=? 90))%nat then ascii_of_nat (code c + 32) else c.

Fixpoint lstrip (l : list ascii) : list ascii :=
  match l with
  | c :: l' => if is_space c then lstrip l' else l
  | [] => []
  end.

Definition strip (l : list ascii) : list ascii := rev (lstrip (rev (lstrip l))).

(** *** [int(s)]

    After stripping: an optional sign, then decimal digits, where single
    underscores may stand between digits.  The interpreter converts no
    text of more than [sys.int_max_str_digits] digits, 4300 by default (the
    program does not change it); the sign, the underscores and the white
    space do not count, leading zeros do.  [int] raises a [ValueError] on
    a text that is no such literal and on one with too many digits. *)

Fixpoint int_digits (acc : Z) (after_digit : bool) (l : list ascii) : option Z :=
  match l with
  | [] => if after_digit then Some acc else None
  | c :: l' =>
      if is_digit c then int_digits (10 * acc + digit_val c) true l'
      else if Ascii.eqb c "_" && after_digit then int_digits acc false l'
      else None
  end.

Definition int_literal (l : list ascii) : option Z :=
  match l with
  | c :: l' =>
      if Ascii.eqb c "-" then Z.opp <$> int_digits 0 false l'
      else if Ascii.eqb c "+" then int_digits 0 false l'
      else int_digits 0 false l
  | [] => None
  end.

Definition int_max_str_digits : Z := 4300.

Definition digit_count (l : list ascii) : Z :=
  Z.of_nat (length (List.filter is_digit l)).

Definition int (s : string) : result Z :=
  let l := strip (chars s) in
  match int_literal l with
  | Some n =>
      if digit_count l <=? int_max_str_digits then Ok n
      else Raise (InvalidIntLiteral s)
  | None => Raise (InvalidIntLiteral s)
  end.

(** *** [float(s)]

    Underscores may stand between digits only and are dropped; the text is
    stripped; then an optional sign is followed by a decimal literal
    (digits, an optional fraction, an optional exponent; at least one digit
    before the exponent) or by [inf], [infinity] or [nan] in any case.  A
    decimal literal is rounded to the nearest binary64 value, ties to
    even; a literal too large in magnitude gives an infinity. *)

Definition prec : Z := 53.
Definition emax : Z := 1024.

Fixpoint underscores_ok (prev : option ascii) (l : list ascii) : bool :=
  match l with
  | [] => true
  | c :: l' =>
      (if Ascii.eqb c "_"
       then from_option is_digit false prev
            && match l' with d :: _ => is_digit d | [] => false end
       else true)
      && underscores_ok (Some c) l'
  end.

Definition drop_underscores (l : list ascii) : list ascii :=
  List.filter (fun c => negb (Ascii.eqb c "_")) l.

Fixpoint span_digits (l : list ascii) : list ascii * list ascii :=
  match l with
  | c :: l' =>
      if is_digit c then let '(ds, r) := span_digits l' in (c :: ds, r) else ([], l)
  | [] => ([], [])
  end.

Definition digits_value (ds : list ascii) : Z :=
  fold_left (fun acc c => 10 * acc + digit_val c) ds 0.

(** An optional sign in front of [l]: [true] for a minus. *)
Definition take_sign (l : list ascii) : bool * list ascii :=
  match l with
  | c :: l' =>
      if Ascii.eqb c "-" then (true, l')
      else if Ascii.eqb c "+" then (false, l')
      else (false, l)
  | [] => (false, [])
  end.

(** What follows the [e] of a decimal literal. *)
Definition exponent_part (l : list ascii) : option Z :=
  let '(neg, l1) := take_sign l in
  let '(ds, r) := span_digits l1 in
  match ds, r with
  | _ :: _, [] => Some (if neg then - digits_value ds else digits_value ds)
  | _, _ => None
  end.

(** An unsigned decimal literal as [(n, e)], standing for [n * 10 ^ e]. *)
Definition decimal_literal (l : list ascii) : option (Z * Z) :=
  let '(ip, r1) := span_digits l in
  let '(fp, r2) :=
    match r1 with
    | c :: r => if Ascii.eqb c "." then span_digits r else ([], r1)
    | [] => ([], [])
    end in
  match ip ++ fp with
  | [] => None
  | ds =>
      let n := digits_value ds in
      let scale := Z.of_nat (length fp) in
      match r2 with
      | [] => Some (n, - scale)
      | c :: r3 =>
          if Ascii.eqb (lower c) "e"
          then x ← exponent_part r3; Some (n, x - scale)
          else None
      end
  end.

Definition special_literal (l : list ascii) : option spec_float :=
  let w := of_chars (map lower l) in
  if bool_decide (w = "inf") || bool_decide (w = "infinity")
  then Some (S754_infinity false)
  else if bool_decide (w = "nan") then Some S754_nan
  else None.

(** The binary64 value nearest to [(-1)^neg * n * 10 ^ e], ties to even.
    For a negative [e] the quotient is taken with at least [prec + 1]
    bits and the remainder decides the rounding. *)
Definition round_decimal (neg : bool) (n e : Z) : spec_float :=
  if n =? 0 then S754_zero neg
  else if 0 <=? e then binary_round prec emax neg (Z.to_pos (n * 10 ^ e)) 0
  else
    let d := 10 ^ (- e) in
    let k := Z.log2_up d + prec in
    let '(q, r) := Z.div_eucl (n * 2 ^ k) d in
    binary_round_aux prec emax neg q (- k) (new_location d r).

Definition float_literal (l : list ascii) : option spec_float :=
  let '(neg, body) := take_sign l in
  match decimal_literal body with
  | Some (n, e) => Some (round_decimal neg n e)
  | None => (if neg then SFopp else id) <$> special_literal body
  end.

Definition float (s : string) : result spec_float :=
  let l := chars s in
  match (if underscores_ok None l
         then float_literal (strip (drop_underscores l))
         else None) with
  | Some f => Ok f
  | None => Raise (InvalidFloatLiteral s)
  end.

(** *** [str(x)]

    [str] of an integer is its decimal numeral.  [str] of a float is its
    [repr]: the shortest decimal numeral that [float] reads back as the
    same value (the nearest one when there are several), printed with an
    exponent when its decimal point lies more than 16 places to the right
    or more than 3 to the left of the first digit. *)

Definition str_int (n : Z) : string := NilZero.string_of_int (Z.to_int n).

Definition float_same (a b : spec_float) : bool :=
  match a, b with
  | S754_zero s1, S754_zero s2 => Bool.eqb s1 s2
  | S754_infinity s1, S754_infinity s2 => Bool.eqb s1 s2
  | S754_nan, S754_nan => true
  | S754_finite s1 m1 e1, S754_finite s2 m2 e2 =>
      Bool.eqb s1 s2 && Pos.eqb m1 m2 && Z.eqb e1 e2
  | _, _ => false
  end.

Section Shortest.
(** The positive value [num / den] of the float [f]. *)
Variables (f : spec_float) (num den : Z).

(** [num / den < 10 ^ k] *)
Definition below_pow10 (k : Z) : bool :=
  if 0 <=? k then num <? 10 ^ k * den else num * 10 ^ (- k) <? den.

(** The decimal exponent [t] of the value: [10 ^ t <= num / den < 10 ^ (t + 1)],
    searched upwards from [t]. *)
Fixpoint log10_from (fuel : nat) (t : Z) : Z :=
  match fuel with
  | O => t
  | S fuel' => if below_pow10 (t + 1) then t else log10_from fuel' (t + 1)
  end.

(** [num / den / 10 ^ x] as quotient, remainder and divisor. *)
Definition scaled (x : Z) : Z * Z * Z :=
  let '(a, b) :=
    if 0 <=? x then (num, den * 10 ^ x) else (num * 10 ^ (- x), den) in
  let '(q, r) := Z.div_eucl a b in
  (q, r, b).

Definition reads_back (d x : Z) : bool := float_same (round_decimal false d x) f.

(** The multiple of [10 ^ x] nearest to the value among the two around it
    that read back as [f], if any. *)
Definition nearest_reading_back (x : Z) : option Z :=
  let '(lo, r, b) := scaled x in
  if r =? 0 then (if reads_back lo x then Some lo else None)
  else
    let hi := lo + 1 in
    match reads_back lo x, reads_back hi x with
    | true, true =>
        Some match 2 * r ?= b with
             | Lt => lo
             | Gt => hi
             | Eq => if Z.even lo then lo else hi
             end
    | true, false => Some lo
    | false, true => Some hi
    | false, false => None
    end.

(** Try [p], [p + 1], ... significant digits. *)
Fixpoint shortest_from (fuel : nat) (t p : Z) : Z * Z :=
  let x := t - (p - 1) in
  match fuel with
  | O => (fst (fst (scaled x)), x)
  | S fuel' =>
      match nearest_reading_back x with
      | Some d => (d, x)
      | None => shortest_from fuel' t (p + 1)
      end
  end.
End Shortest.

Fixpoint drop_zeros (l : list ascii) : list ascii :=
  match l with
  | c :: l' => if Ascii.eqb c "0" then drop_zeros l' else l
  | [] => []
  end.

(** The digits of the shortest numeral, without trailing zeros, and the
    position of the decimal point counted from the first digit. *)
Definition shortest_digits (m : positive) (e : Z) : list ascii * Z :=
  let f := binary_round prec emax false m e in
  let '(num, den) := if 0 <=? e then (Z.pos m * 2 ^ e, 1) else (Z.pos m, 2 ^ (- e)) in
  let t := log10_from num den 700 (- 324) in
  let '(d, x) := shortest_from f num den 17 t 1 in
  let all := chars (str_int d) in
  (rev (drop_zeros (rev all)), Z.of_nat (length all) + x).

Definition zeros (n : Z) : string := of_chars (replicate (Z.to_nat n) "0"%char).

Definition format_repr (ds : list ascii) (decpt : Z) : string :=
  let n := Z.of_nat (length ds) in
  if (decpt <=? -4) || (16 <? decpt) then
    let x := decpt - 1 in
    let mant :=
      match ds with
      | d :: (_ :: _) as rest => String d ("." +:+ of_chars rest)
      | _ => of_chars ds
      end in
    let xs := str_int (Z.abs x) in
    mant +:+ (if x <? 0 then "e-" else "e+")
         +:+ (if Z.abs x <? 10 then "0" +:+ xs else xs)
  else if decpt <=? 0 then "0." +:+ zeros (- decpt) +:+ of_chars ds
  else if n <=? decpt then of_chars ds +:+ zeros (decpt - n) +:+ ".0"
  else of_chars (take (Z.to_nat decpt) ds) +:+ "." +:+ of_chars (drop (Z.to_nat decpt) ds).

Definition float_repr (f : spec_float) : string :=
  match f with
  | S754_nan => "nan"
  | S754_infinity s => if s then "-inf" else "inf"
  | S754_zero s => if s then "-0.0" else "0.0"
  | S754_finite s m e =>
      let '(ds, decpt) := shortest_digits m e in
      (if s then "-" else "") +:+ format_repr ds decpt
  end.

Definition str (v : value) : string :=
  match v with
  | VStr s => s
  | VFloat f => float_repr f
  end.

(** *** [needle in s] and [s.split(sep)] *)

(** [needle in s]: [needle] occurs in [s] as a substring. *)
Fixpoint contains (needle s : string) : bool :=
  String.prefix needle s
  || match s with
     | EmptyString => false
     | String _ s' => contains needle s'
     end.

(** [s.split(sep)] for a separator [sep] of one character: the pieces
    between the occurrences of [sep], at least one. *)
Fixpoint split (sep : ascii) (s : string) : list string :=
  match s with
  | EmptyString => [EmptyString]
  | String c s' =>
      if Ascii.eqb c sep then EmptyString :: split sep s'
      else match split sep s' with
           | p :: ps => String c p :: ps
           | [] => [String c EmptyString]
           end
  end.

End Py.

(** ** ElementTree elements *)

Module ET.

(** An element: its tag, its attributes (a [dict] from names to texts),
    its text ([None] when there is none) and its children in document
    order. *)
Inductive element : Type :=
  | Element (tag : string) (attrib : gmap string string)
            (text : option string) (children : list element).

Definition tag (e : element) : string :=
  match e with Element t _ _ _ => t end.
Definition attrib (e : element) : gmap string string :=
  match e with Element _ a _ _ => a end.
Definition text (e : element) : option string :=
  match e with Element _ _ t _ => t end.
Definition children (e : element) : list element :=
  match e with Element _ _ _ cs => cs end.

(** [e.get(key)] and [e.get(key, default)] *)
Definition get (e : element) (key : string) : option string := attrib e !! key.
Definition get_or (e : element) (key dflt : string) : string :=
  default dflt (get e key).

(** [e.iter()]: [e] and the elements below it, in document order. *)
Fixpoint iter (e : element) : list element :=
  match e with
  | Element _ _ _ cs => e :: List.flat_map iter cs
  end.

(** [e.findall('.//' + t)]: the elements below [e] with tag [t], in
    document order; [e.find('.//' + t)] is the first of them. *)
Definition findall (e : element) (t : string) : list element :=
  List.filter (fun x => bool_decide (tag x = t)) (List.flat_map iter (children e)).

Definition find (e : element) (t : string) : option element :=
  head (findall e t).

End ET.

(** ** The converter *)

Module Conv.
Import Py ET.

(** A name in the SpreadsheetML name space, as ElementTree spells it. *)
Definition ss (name : string) : string :=
  "{urn:schemas-microsoft-com:office:spreadsheet}" +:+ name.

(** *** One cell (lines 42-71) *)

(** Lines 48-50:
    [while current_index < index_val: row_data.append(""); current_index += 1] *)
Equations? fill_gaps (index_val : Z) (st : list value * Z) : list value * Z
  by wf (Z.to_nat (index_val - st.2)) lt :=
  fill_gaps index_val (row_data, current_index) with decide (current_index < index_val) => {
    | left _ => fill_gaps index_val (row_data ++ [VStr ""], current_index + 1);
    | right _ => (row_data, current_index) }.
Proof. simpl. lia. Qed.

(** Lines 44-50: the [Index] attribute, when it is there and not empty,
    is read with [int] and the gap before it is filled. *)
Definition expand_index (cell : element) (st : list value * Z) : result (list value * Z) :=
  match get cell (ss "Index") with
  | Some cell_index =>
      if str_truthy cell_index then
        n ← int cell_index;
        let index_val := n - 1 in
        Ok (fill_gaps index_val st)
      else Ok st
  | None => Ok st
  end.

(** Line 54: [data.text if data is not None and data.text else ""] *)
Definition data_text (data : option element) : string :=
  match data with
  | Some d =>
      match text d with
      | Some t => if str_truthy t then t else ""
      | None => ""
      end
  | None => ""
  end.

(** Line 57 *)
Definition data_type (data : option element) : string :=
  match data with
  | Some d => get_or d (ss "Type") "String"
  | None => "String"
  end.

(** Lines 60-68: the conversion by declared type. *)
Definition coerce (type txt : string) : result value :=
  if bool_decide (type = "Number") then
    try_except_value_type
      (if str_truthy txt then VFloat <$> float txt else Ok (VFloat float_zero))
      (VFloat float_zero)
  else if bool_decide (type = "DateTime") then
    if str_truthy txt && contains "T00:00:00" txt then
      match split "T" txt with
      | date :: _ => Ok (VStr date)
      | [] => Raise (Other "IndexError" "list index out of range")
      end
    else Ok (VStr txt)
  else Ok (VStr txt).

(** Lines 53-68: the rendered value of a cell. *)
Definition cell_value (cell : element) : result value :=
  let data := find cell (ss "Data") in
  coerce (data_type data) (data_text data).

(** The body of the loop over the cells of a row, on the pair
    [(row_data, current_index)]. *)
Definition cell_step (st : list value * Z) (cell : element) : result (list value * Z) :=
  '(row_data, current_index) ← expand_index cell st;
  value ← cell_value cell;
  Ok (row_data ++ [value], current_index + 1).

(** *** One row (lines 37-76) *)

Definition build_row (row : element) : result (list value) :=
  fst <$> for_each cell_step ([], 0) (findall row (ss "Cell")).

(** Line 74: [any(x for x in row_data if x)] *)
Definition non_empty_row (row_data : list value) : bool :=
  any (List.filter truthy row_data).

(** The body of the loop over the rows of a table, on the pair
    [(rows_data, max_cols)]. *)
Definition row_step (st : list (list value) * nat) (row : element)
  : result (list (list value) * nat) :=
  let '(rows_data, max_cols) := st in
  row_data ← build_row row;
  if non_empty_row row_data
  then Ok (rows_data ++ [row_data], Nat.max max_cols (length row_data))
  else Ok (rows_data, max_cols).

Definition read_rows (table : element) : result (list (list value) * nat) :=
  for_each row_step ([], 0%nat) (findall table (ss "Row")).

(** *** Padding (lines 79-81) *)

Definition pad_row (max_cols : nat) (row_data : list value) : list value :=
  if (length row_data <? max_cols)%nat
  then row_data ++ replicate (max_cols - length row_data) (VStr "")
  else row_data.

Definition pad_rows (max_cols : nat) (rows_data : list (list value)) : list (list value) :=
  foldl (fun rows i => alter (pad_row max_cols) i rows) rows_data
        (seq 0 (length rows_data)).

(** The normalized grid of a table: its kept rows, padded. *)
Definition normalize (table : element) : result (list (list value)) :=
  '(rows_data, max_cols) ← read_rows table;
  Ok (pad_rows max_cols rows_data).

(** *** Sheets (lines 84-92) *)

(** Line 88 *)
Definition make_headers (headers : list value) : list string :=
  imap (fun i h => if truthy h then str h
                   else "Column" +:+ str_int (Z.of_nat i + 1)) headers.

(** [pd.DataFrame(rows, columns=headers)] *)
Record DataFrame : Type := { columns : list string; data : list (list value) }.

(** Lines 84-91: the sheet of a normalized grid, if it has more than one
    row. *)
Definition make_sheet (rows_data : list (list value)) : option DataFrame :=
  if negb (bool_decide (rows_data = [])) && (1 <? length rows_data)%nat then
    match rows_data with
    | headers :: rest => Some {| columns := make_headers headers; data := rest |}
    | [] => None
    end
  else None.

(** The body of the loop over the worksheets, on the dictionary
    [worksheets]. *)
Definition worksheet_step (worksheets : list (string * DataFrame)) (worksheet : element)
  : result (list (string * DataFrame)) :=
  let sheet_name := get_or worksheet (ss "Name") "Sheet" in
  match find worksheet (ss "Table") with
  | None => Ok worksheets
  | Some table =>
      rows_data ← normalize table;
      match make_sheet rows_data with
      | Some df => Ok (dict_set sheet_name df worksheets)
      | None => Ok worksheets
      end
  end.

Definition collect_worksheets (root : element) : result (list (string * DataFrame)) :=
  for_each worksheet_step [] (findall root (ss "Worksheet")).

(** *** The run (lines 10-108) *)

(** What a run prints:
    [Successfully converted {xml_file} to {xlsx_file}],
    [No data found in {xml_file}] or
    [Error converting XML to Excel: {str(e)}]. *)
Inductive message : Type :=
  | Converted (xml_file xlsx_file : string)
  | NoDataFound (xml_file : string)
  | ErrorConverting (e : exn).

(** What a run does: the sheets it hands to the writer with the path of
    the output file (if it opens the writer at all), the message it prints
    and the value it returns. *)
Record run : Type := {
  writer_call : option (string * list (string * DataFrame));
  printed : message;
  returned : bool
}.

Section Run.
(** The two collaborators: [ET.parse(xml_file).getroot()], and the
    [with pd.ExcelWriter(xlsx_file, ...)] block that writes every sheet
    of the dictionary in order. *)
Variable parse : string -> result element.
Variable write_sheets : string -> list (string * DataFrame) -> result unit.

Definition parse_excel_xml (xml_file xlsx_file : string) : run :=
  match root ← parse xml_file; collect_worksheets root with
  | Ok worksheets =>
      if negb (bool_decide (worksheets = [])) then
        match write_sheets xlsx_file worksheets with
        | Ok _ =>
            {| writer_call := Some (xlsx_file, worksheets);
               printed := Converted xml_file xlsx_file;
               returned := true |}
        | Raise e =>
            {| writer_call := Some (xlsx_file, worksheets);
               printed := ErrorConverting e;
               returned := false |}
        end
      else
        {| writer_call := None; printed := NoDataFound xml_file; returned := false |}
  | Raise e =>
      {| writer_call := None; printed := ErrorConverting e; returned := false |}
  end.
End Run.

(** *** The command (lines 110-123) *)

(** What the command does with its two arguments: it stops on an input
    path that is no file, printing
    [Error: Input file {xml_file} does not exist], or it runs the
    converter (and drops what the converter returns). *)
Inductive outcome : Type :=
  | InputMissing (xml_file : string)
  | Ran (r : run).

Section Main.
(** [os.path.isfile], and the two collaborators of the converter. *)
Variable isfile : string -> bool.
Variable parse : string -> result element.
Variable write_sheets : string -> list (string * DataFrame) -> result unit.

Definition main (xml_file xlsx_file : string) : outcome :=
  if negb (isfile xml_file) then InputMissing xml_file
  else Ran (parse_excel_xml parse write_sheets xml_file xlsx_file).
End Main.

(** The sheets that an outcome has handed to the writer, if any. *)
Definition written (o : outcome) : option (string * list (string * DataFrame)) :=
  match o with
  | InputMissing _ => None
  | Ran r => writer_call r
  end.

End Conv.

(** ** Sample documents *)

Module Samples.
Import Py ET Conv.

Definition attr (name : string) (v : option string) : gmap string string :=
  match v with
  | Some x => {[ ss name := x ]}
  | None => ∅
  end.

(** [<Data ss:Type="type">text</Data>] *)
Definition Data (type text : option string) : element :=
  Element (ss "Data") (attr "Type" type) text [].

(** [<Cell ss:Index="index">...</Cell>] *)
Definition Cell (index : option string) (inner : list element) : element :=
  Element (ss "Cell") (attr "Index" index) None inner.

(** A cell with a [String] text, and one with a typed text. *)
Definition text_cell (index : option string) (t : string) : element :=
  Cell index [Data (Some "String") (Some t)].
Definition typed_cell (type t : string) : element :=
  Cell None [Data (Some type) (Some t)].

Definition Row (cells : list element) : element :=
  Element (ss "Row") ∅ None cells.
Definition Table (rows : list element) : element :=
  Element (ss "Table") ∅ None rows.
Definition Worksheet (name : option string) (inner : list element) : element :=
  Element (ss "Worksheet") (attr "Name" name) None inner.
Definition Workbook (sheets : list element) : element :=
  Element (ss "Workbook") ∅ None sheets.

(** The table of the rows [Name, Age], [Alice, 30] (the age a [Number])
    and a blank row, and a document with this table as its sheet [Data]. *)
Definition people_table : element :=
  Table [Row [text_cell None "Name"; text_cell None "Age"];
         Row [text_cell None "Alice"; typed_cell "Number" "30"];
         Row [text_cell None ""; Cell None []]].
Definition people : element :=
  Workbook [Worksheet (Some "Data") [people_table]].

(** A table with a gap: the second cell declares the position 3. *)
Definition sparse_table : element :=
  Table [Row [text_cell None "a"; text_cell (Some "3") "c"]].

(** A table whose only cell has an [Index] that is no number. *)
Definition bad_index : element :=
  Table [Row [text_cell (Some "abc") "x"]].

(** A table whose only cell has an [Index] of 4301 digits. *)
Definition long_index : element :=
  Table [Row [text_cell (Some (of_chars ("1"%char :: replicate 4300 "0"%char))) "x"]].

(** A sheet whose first row starts with the number 0. *)
Definition zero_header : element :=
  Workbook [Worksheet (Some "Stats") [Table [
    Row [typed_cell "Number" "0"; text_cell None "City"];
    Row [typed_cell "Number" "1"; text_cell None "Paris"]]]].

(** A sheet with a single row, one with blank rows only, one without a
    table, and a document with the three of them. *)
Definition single_row : element :=
  Worksheet (Some "One") [Table [Row [text_cell None "Name"]]].
Definition blank_rows : element :=
  Worksheet (Some "Blank") [Table [Row [text_cell None ""]; Row []]].
Definition no_table : element :=
  Worksheet (Some "Bare") [].
Definition lonely : element :=
  Workbook [single_row; blank_rows; no_table].

(** Two sheets by the name [Data] around a sheet without a name: the
    first [Data] lists a city, the second a year. *)
Definition city_sheet : element :=
  Worksheet (Some "Data") [Table [Row [text_cell None "City"]; Row [text_cell None "Paris"]]].
Definition nameless_sheet : element :=
  Worksheet None [Table [Row [text_cell None "Name"]; Row [text_cell None "Bob"]]].
Definition year_sheet : element :=
  Worksheet (Some "Data") [Table [Row [text_cell None "Year"]; Row [text_cell None "1999"]]].
Definition twice : element :=
  Workbook [city_sheet; nameless_sheet; year_sheet].

(** A good sheet followed by a sheet whose table has a bad [Index]. *)
Definition spoiled : element :=
  Workbook [city_sheet; Worksheet (Some "Bad") [bad_index]].

(** A row with a gap, of the values [a], [b] and, at position 5, [e]. *)
Definition sparse_row : element :=
  Row [text_cell None "a"; text_cell None "b"; text_cell (Some "5") "e"].

End Samples.

(** * Verification *)

Import Py ET Conv.

(** ** Facts about the runtime *)

Lemma bind_Ok_inv {A B : Type} (m : result A) (f : A -> result B) (b : B) :
  m ≫= f = Ok b -> exists a, m = Ok a /\ f a = Ok b.
Proof. destruct m as [a|e]; [eauto | discriminate]. Qed.

Lemma for_each_cons {S A : Type} (body : S -> A -> result S) st x xs :
  for_each body st (x :: xs) = body st x ≫= fun st' => for_each body st' xs.
Proof. reflexivity. Qed.

(** A loop keeps what each of its rounds keeps. *)
Lemma for_each_invariant {S A : Type} (I : S -> Prop) (body : S -> A -> result S) xs :
  (forall s x s', x ∈ xs -> I s -> body s x = Ok s' -> I s') ->
  forall st st', I st -> for_each body st xs = Ok st' -> I st'.
Proof.
  induction xs as [|x xs IH]; intros Hbody st st' Hst Hrun; simpl in Hrun.
  - by injection Hrun as <-.
  - apply bind_Ok_inv in Hrun as (s1 & H1 & H2).
    eapply IH; [| |exact H2].
    + intros s y s' Hy. apply Hbody. by right.
    + eapply Hbody; [by left|exact Hst|exact H1].
Qed.

(** [float] raises nothing but a [ValueError]. *)
Lemma float_raises_ValueError s e : float s = Raise e -> exn_class e = "ValueError".
Proof.
  unfold float.
  destruct (if underscores_ok None (chars s) then _ else _); [discriminate|].
  by intros [= <-].
Qed.

(** [int] accepts the integer literals of 4300 digits at most, and
    rejects every other text with its [ValueError]. *)
Lemma int_Ok_iff s n :
  int s = Ok n <->
  int_literal (strip (chars s)) = Some n /\ digit_count (strip (chars s)) <= 4300.
Proof.
  unfold int. destruct (int_literal (strip (chars s))) as [m|].
  - destruct (Z.leb_spec (digit_count (strip (chars s))) int_max_str_digits) as [Hle|Hgt];
      unfold int_max_str_digits in *.
    + split; [by intros [= <-]|by intros [[= <-] _]].
    + split; [done|]. intros [_ ?]. lia.
  - split; [done|by intros [? _]].
Qed.

Lemma int_Raise_inv s e :
  int s = Raise e ->
  e = InvalidIntLiteral s /\
  (int_literal (strip (chars s)) = None \/ 4300 < digit_count (strip (chars s))).
Proof.
  unfold int. destruct (int_literal (strip (chars s))) as [m|].
  - destruct (Z.leb_spec (digit_count (strip (chars s))) int_max_str_digits) as [Hle|Hgt];
      unfold int_max_str_digits in *; [done|].
    intros [= <-]. split; [done|by right].
  - intros [= <-]. split; [done|by left].
Qed.

(** A text of 4300 digits is converted, a text of 4301 digits is not,
    even when it only has zeros. *)
Example int_digit_limit :
  int (of_chars (replicate 4300 "1"%char)) = Ok ((10 ^ 4300 - 1) / 9) /\
  int (of_chars (replicate 4301 "0"%char))
  = Raise (InvalidIntLiteral (of_chars (replicate 4301 "0"%char))).
Proof. split; vm_compute; reflexivity. Qed.

Lemma split_cons sep s : exists p ps, split sep s = p :: ps.
Proof.
  induction s as [|c s (p & ps & IH)]; simpl; [eauto|].
  destruct (Ascii.eqb c sep); [eauto|]. rewrite IH. eauto.
Qed.

(** The loop of lines 48-50, one round at a time. *)
Lemma fill_gaps_while index_val row_data current_index :
  fill_gaps index_val (row_data, current_index)
  = if decide (current_index < index_val)
    then fill_gaps index_val (row_data ++ [VStr ""], current_index + 1)
    else (row_data, current_index).
Proof.
  rewrite fill_gaps_equation_1.
  by destruct (decide (current_index < index_val)).
Qed.

(** What the loop comes to. *)
Lemma fill_gaps_spec iv row k :
  fill_gaps iv (row, k) = (row ++ replicate (Z.to_nat (iv - k)) (VStr ""), Z.max k iv).
Proof.
  remember (Z.to_nat (iv - k)) as n eqn:Hn. revert row k Hn.
  induction n as [|n IH]; intros row k Hn; simp fill_gaps; destruct (decide (k < iv)); simpl.
  - lia.
  - rewrite app_nil_r. f_equal. lia.
  - rewrite (IH (row ++ [VStr ""]) (k + 1)) by lia.
    rewrite <- app_assoc. simpl. f_equal. lia.
  - lia.
Qed.

(** The conversion by type does not raise. *)
Lemma coerce_total type txt : exists v, coerce type txt = Ok v.
Proof.
  unfold coerce. repeat case_bool_decide.
  - destruct (str_truthy txt); simpl; [|eauto].
    destruct (float txt) as [f|e] eqn:Hf; simpl; [eauto|].
    rewrite (float_raises_ValueError _ _ Hf). simpl. eauto.
  - destruct (str_truthy txt && contains "T00:00:00" txt); [|eauto].
    destruct (split_cons "T" txt) as (p & ps & ->). eauto.
  - eauto.
Qed.

Lemma cell_value_total cell : exists v, cell_value cell = Ok v.
Proof. apply coerce_total. Qed.

(** ** Cells *)

Lemma expand_index_absent cell st :
  (forall s, get cell (ss "Index") = Some s -> s = "") ->
  expand_index cell st = Ok st.
Proof.
  intros H. unfold expand_index.
  destruct (get cell (ss "Index")) as [s|]; [|done].
  by rewrite (H s eq_refl).
Qed.

Lemma expand_index_present cell row_data K s P :
  get cell (ss "Index") = Some s -> s <> "" -> int s = Ok P ->
  expand_index cell (row_data, K)
  = Ok (row_data ++ replicate (Z.to_nat (P - 1 - K)) (VStr ""), Z.max K (P - 1)).
Proof.
  intros Hs Hne HP. unfold expand_index. rewrite Hs.
  destruct s; [done|]. simpl. rewrite HP. simpl. by rewrite fill_gaps_spec.
Qed.

(** C2: a cell that declares the 1-based position [P] while the running
    count [K] is below [P - 1] puts exactly [P - 1 - K] empty strings
    before its rendered value, and the count then advances by one, from
    [P - 1] to [P]; a cell without a position (no [Index], or an empty one)
    appends its value at the running count, which advances by one. *)
Theorem C2_gap_before_declared_position (cell : element) (row_data : list value) (K : Z) :
  exists v, cell_value cell = Ok v /\
    (forall s P, get cell (ss "Index") = Some s -> s <> "" -> int s = Ok P -> K < P - 1 ->
       cell_step (row_data, K) cell
       = Ok (row_data ++ replicate (Z.to_nat (P - 1 - K)) (VStr "") ++ [v], (P - 1) + 1)) /\
    ((forall s, get cell (ss "Index") = Some s -> s = "") ->
       cell_step (row_data, K) cell = Ok (row_data ++ [v], K + 1) /\
       (Z.of_nat (length row_data) = K -> (row_data ++ [v]) !! Z.to_nat K = Some v)).
Proof.
  destruct (cell_value_total cell) as [v Hv]. exists v. split; [exact Hv|]. split.
  - intros s P Hs Hne HP HK. unfold cell_step.
    rewrite (expand_index_present _ _ _ _ _ Hs Hne HP). simpl. rewrite Hv. simpl.
    rewrite <- app_assoc. do 2 f_equal. lia.
  - intros Habsent. split.
    + unfold cell_step. rewrite (expand_index_absent _ _ Habsent). simpl. by rewrite Hv.
    + intros <-. rewrite Nat2Z.id. by rewrite lookup_app_r, Nat.sub_diag.
Qed.

(** C9: a cell that declares a position [P] with [P - 1] at or below the
    running count [K] inserts no placeholder and leaves the row as it is:
    its value is appended and the count advances by one. *)
Theorem C9_backward_position_is_ignored
    (cell : element) (row_data : list value) (K : Z) (s : string) (P : Z) :
  get cell (ss "Index") = Some s -> s <> "" -> int s = Ok P -> P - 1 <= K ->
  exists v, cell_value cell = Ok v /\
    cell_step (row_data, K) cell = Ok (row_data ++ [v], K + 1).
Proof.
  intros Hs Hne HP HK. destruct (cell_value_total cell) as [v Hv]. exists v.
  split; [exact Hv|]. unfold cell_step.
  rewrite (expand_index_present _ _ _ _ _ Hs Hne HP). simpl. rewrite Hv. simpl.
  replace (Z.to_nat (P - 1 - K)) with 0%nat by lia. simpl. rewrite app_nil_r.
  do 3 f_equal. lia.
Qed.

(** C3: a cell declared [Number] never raises, and its value is [0.0]
    when its text is missing or empty or when [float] rejects it. *)
Theorem C3_number_degrades_to_zero (cell d : element) :
  find cell (ss "Data") = Some d -> get d (ss "Type") = Some "Number" ->
  exists v, cell_value cell = Ok v /\
    (default "" (text d) = "" \/ (exists e, float (default "" (text d)) = Raise e) ->
     v = VFloat (S754_zero false)).
Proof.
  intros Hd Hty. unfold cell_value, data_type, data_text, get_or. rewrite Hd, Hty. simpl.
  unfold coerce. rewrite bool_decide_eq_true_2 by done.
  destruct (text d) as [[|c t]|]; simpl.
  - eexists; split; [done|done].
  - destruct (float (String c t)) as [f|e] eqn:Hf; simpl.
    + eexists; split; [done|]. intros [?|[e He]]; done.
    + rewrite (float_raises_ValueError _ _ Hf). simpl. eexists; split; done.
  - eexists; split; done.
Qed.

(** ** Rows *)

Lemma non_empty_row_existsb row_data : non_empty_row row_data = existsb truthy row_data.
Proof.
  unfold non_empty_row, any.
  induction row_data as [|v l IH]; simpl; [done|].
  destruct (truthy v) eqn:Hv; simpl; [by rewrite Hv|exact IH].
Qed.

Lemma truthy_spec v :
  truthy v = true <->
  (exists s, v = VStr s /\ s <> "") \/ (exists f, v = VFloat f /\ forall sg, f <> S754_zero sg).
Proof.
  split.
  - destruct v as [[|c s]|[]]; simpl; try discriminate; intros _;
      solve [left; eexists; split; [reflexivity|discriminate]
            |right; eexists; split; [reflexivity|discriminate]].
  - intros [(s & -> & Hs)|(f & -> & Hf)]; simpl.
    + by destruct s.
    + destruct f; try done. by destruct (Hf s).
Qed.

Lemma existsb_truthy_spec (rd : list value) :
  existsb truthy rd = true <-> exists v, v ∈ rd /\ truthy v = true.
Proof.
  rewrite existsb_exists. split; intros (v & Hin & Hv); exists v; split; try done.
  - by apply list_elem_of_In.
  - by apply list_elem_of_In.
Qed.

Lemma row_step_spec rows_data max_cols row row_data :
  build_row row = Ok row_data ->
  row_step (rows_data, max_cols) row
  = Ok (if existsb truthy row_data
        then (rows_data ++ [row_data], Nat.max max_cols (length row_data))
        else (rows_data, max_cols)).
Proof.
  intros Hb. unfold row_step. rewrite Hb. simpl.
  rewrite non_empty_row_existsb. by destruct (existsb truthy row_data).
Qed.

(** The loop over the rows, from any state, in terms of the rows as built. *)
Lemma rows_loop_spec rows built :
  Forall2 (fun row rd => build_row row = Ok rd) rows built ->
  forall rows_data max_cols,
    for_each row_step (rows_data, max_cols) rows
    = Ok (rows_data ++ List.filter (existsb truthy) built,
          Nat.max max_cols (max_list (length <$> List.filter (existsb truthy) built))).
Proof.
  induction 1 as [|row rd rows built Hrd _ IH]; intros rows_data max_cols.
  - simpl. rewrite app_nil_r. f_equal. f_equal. lia.
  - rewrite for_each_cons, (row_step_spec _ _ _ _ Hrd). simpl.
    destruct (existsb truthy rd); rewrite IH; [|done].
    rewrite <- app_assoc. simpl. do 2 f_equal. symmetry. apply Nat.max_assoc.
Qed.

Lemma read_rows_spec table built :
  Forall2 (fun row rd => build_row row = Ok rd) (findall table (ss "Row")) built ->
  read_rows table
  = Ok (List.filter (existsb truthy) built,
        max_list (length <$> List.filter (existsb truthy) built)).
Proof. intros H. unfold read_rows. by rewrite (rows_loop_spec _ _ H). Qed.

(** When the loop over the rows ends, there are rows as built. *)
Lemma rows_loop_built rows :
  forall st st', for_each row_step st rows = Ok st' ->
  exists built, Forall2 (fun row rd => build_row row = Ok rd) rows built.
Proof.
  induction rows as [|row rows IH]; intros st st' Hrun.
  - exists []. constructor.
  - rewrite for_each_cons in Hrun. apply bind_Ok_inv in Hrun as (s1 & H1 & H2).
    destruct st as [rows_data max_cols]. unfold row_step in H1.
    apply bind_Ok_inv in H1 as (rd & Hrd & _).
    destruct (IH _ _ H2) as [built Hbuilt].
    exists (rd :: built). by constructor.
Qed.

(** C5: of the rows of a table as built, those with a true value (a
    string that is not empty, a number that is not zero) are kept, in
    order, and no other; a row of empty strings only is not kept; and the
    column width is the greatest length among the kept rows. *)
Theorem C5_rows_with_a_true_value_are_kept (table : element) (built : list (list value)) :
  Forall2 (fun row rd => build_row row = Ok rd) (findall table (ss "Row")) built ->
  exists rows_data max_cols,
    read_rows table = Ok (rows_data, max_cols) /\
    rows_data = List.filter (existsb truthy) built /\
    (forall rd, rd ∈ rows_data <-> rd ∈ built /\ exists v, v ∈ rd /\ truthy v = true) /\
    (forall v, truthy v = true <->
       (exists s, v = VStr s /\ s <> "") \/
       (exists f, v = VFloat f /\ forall sg, f <> S754_zero sg)) /\
    (forall rd, Forall (fun v => v = VStr "") rd -> rd ∉ rows_data) /\
    max_cols = max_list (length <$> rows_data).
Proof.
  intros Hbuilt. eexists _, _. split; [exact (read_rows_spec _ _ Hbuilt)|].
  split; [done|]. split; [|split; [exact truthy_spec|split; [|done]]].
  - intros rd. rewrite list_elem_of_In, filter_In, <- list_elem_of_In, existsb_truthy_spec.
    tauto.
  - intros rd Hall Hin.
    apply list_elem_of_In, filter_In in Hin as [_ Hex].
    apply existsb_truthy_spec in Hex as (v & Hv & Ht).
    rewrite Forall_forall in Hall. by rewrite (Hall v Hv) in Ht.
Qed.

(** ** The grid *)

Lemma pad_rows_fmap max_cols rows_data :
  pad_rows max_cols rows_data = pad_row max_cols <$> rows_data.
Proof.
  unfold pad_rows.
  enough (forall todo seen,
    foldl (fun rows i => alter (pad_row max_cols) i rows) (seen ++ todo)
          (seq (length seen) (length todo))
    = seen ++ (pad_row max_cols <$> todo)) as H by exact (H rows_data []).
  induction todo as [|r todo IH]; intros seen; simpl; [done|].
  rewrite alter_app_r_alt, Nat.sub_diag by done. simpl.
  rewrite (cons_middle (pad_row max_cols r) seen todo), app_assoc.
  replace (S (length seen)) with (length (seen ++ [pad_row max_cols r]))
    by (rewrite length_app; simpl; lia).
  rewrite IH. by rewrite <- app_assoc.
Qed.

Lemma length_pad_row max_cols row_data :
  (length row_data <= max_cols)%nat -> length (pad_row max_cols row_data) = max_cols.
Proof.
  intros Hle. unfold pad_row.
  destruct (length row_data <? max_cols)%nat eqn:Hlt.
  - rewrite length_app, length_replicate. lia.
  - apply Nat.ltb_ge in Hlt. lia.
Qed.

(** Every kept row is at most [max_cols] long. *)
Lemma read_rows_bound table rows_data max_cols :
  read_rows table = Ok (rows_data, max_cols) ->
  Forall (fun r => (length r <= max_cols)%nat) rows_data.
Proof.
  intros Hrun.
  destruct (rows_loop_built _ _ _ Hrun) as [built Hbuilt].
  rewrite (read_rows_spec _ _ Hbuilt) in Hrun. injection Hrun as <- <-.
  apply Forall_forall. intros r Hr.
  apply max_list_elem_of_le, list_elem_of_fmap. eauto.
Qed.

(** The grid is rectangular: after the padding every kept row has the
    length of the longest one. *)
Lemma normalize_rectangular table grid :
  normalize table = Ok grid ->
  exists rows_data max_cols,
    read_rows table = Ok (rows_data, max_cols) /\
    max_cols = max_list (length <$> rows_data) /\
    length grid = length rows_data /\
    Forall (fun r => length r = max_cols) grid.
Proof.
  intros Hn. unfold normalize in Hn.
  apply bind_Ok_inv in Hn as ([rows_data max_cols] & Hread & Hgrid).
  injection Hgrid as <-. exists rows_data, max_cols.
  split; [exact Hread|]. rewrite pad_rows_fmap. split; [|split].
  - destruct (rows_loop_built _ _ _ Hread) as [built Hbuilt].
    rewrite (read_rows_spec _ _ Hbuilt) in Hread. by injection Hread as <- <-.
  - by rewrite length_fmap.
  - apply Forall_fmap. eapply Forall_impl; [exact (read_rows_bound _ _ _ Hread)|].
    intros r Hr. by apply length_pad_row.
Qed.

(** ** Sheets *)

Lemma make_sheet_Some grid df :
  make_sheet grid = Some df ->
  exists headers rest,
    grid = headers :: rest /\ rest <> [] /\
    df = {| columns := make_headers headers; data := rest |}.
Proof.
  unfold make_sheet. destruct grid as [|headers [|r rest]]; simpl; try discriminate.
  intros [= <-]. by exists headers, (r :: rest).
Qed.

Lemma make_sheet_short grid : (length grid < 2)%nat -> make_sheet grid = None.
Proof. destruct grid as [|headers [|r rest]]; simpl; [done|done|lia]. Qed.

Lemma length_make_headers headers : length (make_headers headers) = length headers.
Proof. apply length_imap. Qed.

(** The sheet of a rectangular grid is rectangular. *)
Lemma make_sheet_rectangular grid df width :
  Forall (fun r => length r = width) grid ->
  make_sheet grid = Some df ->
  length (columns df) = width /\ Forall (fun r => length r = length (columns df)) (data df).
Proof.
  intros Hall Hdf. apply make_sheet_Some in Hdf as (headers & rest & -> & _ & ->).
  simpl. rewrite length_make_headers.
  apply Forall_cons in Hall as [-> Hrest]. done.
Qed.

(** How a round of the loop over the worksheets ends. *)
Lemma worksheet_step_Ok worksheets worksheet worksheets' :
  worksheet_step worksheets worksheet = Ok worksheets' ->
  (worksheets' = worksheets /\
   forall table, find worksheet (ss "Table") = Some table ->
     exists grid, normalize table = Ok grid /\ make_sheet grid = None) \/
  (exists table grid df,
     find worksheet (ss "Table") = Some table /\
     normalize table = Ok grid /\ make_sheet grid = Some df /\
     worksheets' = dict_set (get_or worksheet (ss "Name") "Sheet") df worksheets).
Proof.
  unfold worksheet_step. destruct (find worksheet (ss "Table")) as [table|].
  - intros H. apply bind_Ok_inv in H as (grid & Hgrid & H).
    destruct (make_sheet grid) as [df|] eqn:Hdf; injection H as <-.
    + right. by exists table, grid, df.
    + left. split; [done|]. intros ? [= <-]. eauto.
  - intros [= <-]. left. split; [done|]. discriminate.
Qed.

Lemma dict_set_elem {V : Type} k (v : V) d k' v' :
  (k', v') ∈ dict_set k v d -> (k', v') = (k, v) \/ (k', v') ∈ d.
Proof.
  induction d as [|[k0 v0] d IH]; simpl.
  - intros ->%list_elem_of_singleton. by left.
  - case_bool_decide.
    + intros [->|?]%elem_of_cons; [by left|]. right. by right.
    + intros [->|[?|?]%IH]%elem_of_cons; [right; by left|by left|right; by right].
Qed.

Lemma collect_worksheets_rectangular root worksheets :
  collect_worksheets root = Ok worksheets ->
  forall name df, (name, df) ∈ worksheets ->
    Forall (fun r => length r = length (columns df)) (data df).
Proof.
  unfold collect_worksheets.
  apply (for_each_invariant
           (fun wss => forall name df, (name, df) ∈ wss ->
              Forall (fun r => length r = length (columns df)) (data df))).
  - intros wss w wss' _ Hwss Hstep name df Hin.
    apply worksheet_step_Ok in Hstep as [[-> _]|(table & grid & df' & _ & Hn & Hdf & ->)];
      [by eapply Hwss|].
    apply dict_set_elem in Hin as [[= -> ->]|Hin]; [|by eapply Hwss].
    apply normalize_rectangular in Hn as (? & max_cols & _ & _ & _ & Hall).
    by apply (make_sheet_rectangular _ _ _ Hall Hdf).
  - intros name df Hin. by apply elem_of_nil in Hin.
Qed.

Lemma parse_excel_xml_writer_call parse write_sheets xml_file xlsx_file path worksheets :
  writer_call (parse_excel_xml parse write_sheets xml_file xlsx_file) = Some (path, worksheets) ->
  exists root, parse xml_file = Ok root /\ collect_worksheets root = Ok worksheets.
Proof.
  unfold parse_excel_xml.
  destruct (parse xml_file) as [root|e]; simpl; [|discriminate].
  destruct (collect_worksheets root) as [wss|e] eqn:Hwss; simpl; [|discriminate].
  destruct (negb (bool_decide (wss = []))); [|discriminate].
  destruct (write_sheets xlsx_file wss); intros [= <- <-]; eauto.
Qed.

(** C1: the grid of a table is rectangular (after the padding every kept
    row is as long as the longest kept row), and in every sheet that a run
    hands to the writer each data row has as many values as the header row
    has names. *)
Theorem C1_every_sheet_is_rectangular :
  (forall table grid, normalize table = Ok grid ->
     exists rows_data max_cols,
       read_rows table = Ok (rows_data, max_cols) /\
       max_cols = max_list (length <$> rows_data) /\
       Forall (fun r => length r = max_cols) grid) /\
  (forall parse write_sheets xml_file xlsx_file path worksheets,
     writer_call (parse_excel_xml parse write_sheets xml_file xlsx_file)
     = Some (path, worksheets) ->
     forall name df, (name, df) ∈ worksheets ->
       Forall (fun r => length r = length (columns df)) (data df)).
Proof.
  split.
  - intros table grid Hn.
    apply normalize_rectangular in Hn as (rows_data & max_cols & ? & ? & _ & ?).
    by exists rows_data, max_cols.
  - intros parse write_sheets xml_file xlsx_file path worksheets Hcall name df Hin.
    apply parse_excel_xml_writer_call in Hcall as (root & _ & Hwss).
    exact (collect_worksheets_rectangular _ _ Hwss _ _ Hin).
Qed.

(** A worksheet that does not qualify leaves the dictionary as it is. *)
Lemma worksheet_step_dropped worksheets worksheet :
  (forall table, find worksheet (ss "Table") = Some table ->
     exists grid, normalize table = Ok grid /\ (length grid < 2)%nat) ->
  worksheet_step worksheets worksheet = Ok worksheets.
Proof.
  intros H. unfold worksheet_step.
  destruct (find worksheet (ss "Table")) as [table|]; [|done].
  destruct (H table eq_refl) as (grid & -> & Hlen). simpl.
  by rewrite (make_sheet_short _ Hlen).
Qed.

(** C6: a worksheet whose grid has fewer than two rows leaves no sheet
    (and raises nothing); a sheet is only made from a grid of two rows or
    more; and a run that reads a document in which no worksheet has such a
    grid opens no writer, prints the no-data message and returns
    [False]. *)
Theorem C6_sheets_need_two_rows :
  (forall worksheets worksheet table grid,
     find worksheet (ss "Table") = Some table -> normalize table = Ok grid ->
     (length grid < 2)%nat ->
     worksheet_step worksheets worksheet = Ok worksheets) /\
  (forall worksheets worksheet worksheets',
     worksheet_step worksheets worksheet = Ok worksheets' ->
     worksheets' = worksheets \/
     exists table grid df,
       find worksheet (ss "Table") = Some table /\ normalize table = Ok grid /\
       (2 <= length grid)%nat /\ make_sheet grid = Some df /\
       worksheets' = dict_set (get_or worksheet (ss "Name") "Sheet") df worksheets) /\
  (forall parse write_sheets xml_file xlsx_file root,
     parse xml_file = Ok root ->
     (forall worksheet table,
        worksheet ∈ findall root (ss "Worksheet") ->
        find worksheet (ss "Table") = Some table ->
        exists grid, normalize table = Ok grid /\ (length grid < 2)%nat) ->
     parse_excel_xml parse write_sheets xml_file xlsx_file
     = {| writer_call := None; printed := NoDataFound xml_file; returned := false |}).
Proof.
  split; [|split].
  - intros worksheets worksheet table grid Ht Hn Hlen.
    apply worksheet_step_dropped. intros ? Ht'. rewrite Ht in Ht'. injection Ht' as <-. eauto.
  - intros worksheets worksheet worksheets' Hstep.
    apply worksheet_step_Ok in Hstep as [[-> _]|(table & grid & df & Ht & Hn & Hdf & ->)];
      [by left|right].
    exists table, grid, df. repeat split; try done.
    destruct (decide (2 <= length grid)%nat) as [|Hlt]; [done|].
    rewrite make_sheet_short in Hdf by lia. done.
  - intros parse write_sheets xml_file xlsx_file root Hroot Hnone.
    unfold parse_excel_xml. rewrite Hroot. simpl.
    enough (collect_worksheets root = Ok []) as -> by done.
    unfold collect_worksheets.
    induction (findall root (ss "Worksheet")) as [|w ws IH]; [done|].
    rewrite for_each_cons, worksheet_step_dropped.
    + apply IH. intros w' table Hw'. apply Hnone. by right.
    + intros table. apply Hnone. by left.
Qed.

(** ** Headers *)

(** C7, amended: the header has one name for each value of the first
    row.  A value that is false (the empty string, or a zero number) gives
    ["Column"] followed by its 1-based position; any other value gives its
    [str]: a string that is not empty gives itself, whatever it holds and
    even when it occurs twice, and a number that is not zero gives its
    [repr].  The first row [["", "City"]] gives [["Column1", "City"]]. *)
Theorem C7_false_headers_are_numbered (headers : list value) :
  length (make_headers headers) = length headers /\
  (forall i h, headers !! i = Some h ->
     (h = VStr "" \/ (exists sg, h = VFloat (S754_zero sg)) ->
      make_headers headers !! i = Some ("Column" +:+ str_int (Z.of_nat i + 1))) /\
     (forall s, h = VStr s -> s <> "" -> make_headers headers !! i = Some s) /\
     (forall f, h = VFloat f -> (forall sg, f <> S754_zero sg) ->
      make_headers headers !! i = Some (float_repr f))) /\
  make_headers [VStr ""; VStr "City"] = ["Column1"; "City"] /\
  make_headers [VStr "City"; VStr "City"] = ["City"; "City"].
Proof.
  split; [apply length_make_headers|]. split; [|by split].
  intros i h Hi. unfold make_headers. rewrite list_lookup_imap, Hi. simpl.
  split; [|split].
  - by intros [->|[sg ->]].
  - intros s -> Hs. by destruct s.
  - intros f -> Hf. destruct f; try done. by destruct (Hf s).
Qed.

(** ** Errors *)

Lemma for_each_Raise {S A : Type} (body : S -> A -> result S) xs :
  forall st e, for_each body st xs = Raise e ->
  exists s x, x ∈ xs /\ body s x = Raise e.
Proof.
  induction xs as [|x xs IH]; intros st e Hrun; [discriminate|].
  rewrite for_each_cons in Hrun.
  destruct (body st x) as [s1|e1] eqn:Hx; simpl in Hrun.
  - destruct (IH _ _ Hrun) as (s & y & Hy & Hs). exists s, y. split; [by right|done].
  - injection Hrun as <-. exists st, x. split; [by left|done].
Qed.

(** A cell raises only through its [Index]. *)
Lemma cell_step_Raise st cell e :
  cell_step st cell = Raise e ->
  exists s, get cell (ss "Index") = Some s /\ s <> "" /\ int s = Raise e.
Proof.
  unfold cell_step, expand_index.
  destruct (cell_value_total cell) as [v ->].
  destruct (get cell (ss "Index")) as [s|]; [|by destruct st].
  destruct s as [|c s]; [by destruct st|]. simpl.
  destruct (int (String c s)) as [n|e'] eqn:Hint; simpl.
  - by destruct (fill_gaps (n - 1) st).
  - intros [= <-]. by exists (String c s).
Qed.

Lemma build_row_Raise row e :
  build_row row = Raise e ->
  exists cell s, cell ∈ findall row (ss "Cell") /\
    get cell (ss "Index") = Some s /\ s <> "" /\ int s = Raise e.
Proof.
  unfold build_row.
  destruct (for_each cell_step _ _) as [st|e'] eqn:Hrun; [discriminate|].
  intros [= <-]. apply for_each_Raise in Hrun as (st & cell & Hcell & Hstep).
  apply cell_step_Raise in Hstep as (s & ?). by exists cell, s.
Qed.

Lemma normalize_Raise table e :
  normalize table = Raise e ->
  exists row cell s,
    row ∈ findall table (ss "Row") /\ cell ∈ findall row (ss "Cell") /\
    get cell (ss "Index") = Some s /\ s <> "" /\ int s = Raise e.
Proof.
  unfold normalize, read_rows.
  destruct (for_each row_step _ _) as [[rows_data max_cols]|e'] eqn:Hrun; [discriminate|].
  intros [= <-]. apply for_each_Raise in Hrun as ([rows_data max_cols] & row & Hrow & Hstep).
  unfold row_step in Hstep.
  destruct (build_row row) as [rd|e0] eqn:Hrd; simpl in Hstep.
  - by destruct (non_empty_row rd).
  - injection Hstep as <-.
    apply build_row_Raise in Hrd as (cell & s & ?). by exists row, cell, s.
Qed.

(** C8, amended: the normalizer raises nothing for a table in which every
    [Index] that is not empty is an integer literal of 4300 digits at
    most, that is, one that [int] accepts (a numeric text that [float]
    rejects gives [0.0], and reading the [Data] element never raises); and
    when it raises, the error is the [ValueError] that [int] raises on an
    [Index] that is not empty and that is no integer literal or has more
    than 4300 digits. *)
Theorem C8_only_a_bad_index_raises (table : element) :
  ((forall row cell s,
      row ∈ findall table (ss "Row") -> cell ∈ findall row (ss "Cell") ->
      get cell (ss "Index") = Some s -> s <> "" ->
      (exists n, int_literal (strip (chars s)) = Some n) /\
      digit_count (strip (chars s)) <= 4300) ->
   exists grid, normalize table = Ok grid) /\
  (forall e, normalize table = Raise e ->
     exists row cell s,
       row ∈ findall table (ss "Row") /\ cell ∈ findall row (ss "Cell") /\
       get cell (ss "Index") = Some s /\ s <> "" /\
       int s = Raise e /\ e = InvalidIntLiteral s /\
       (int_literal (strip (chars s)) = None \/ 4300 < digit_count (strip (chars s)))).
Proof.
  split.
  - intros Hvalid. destruct (normalize table) as [grid|e] eqn:Hn; [eauto|].
    apply normalize_Raise in Hn as (row & cell & s & Hrow & Hcell & Hs & Hne & Hint).
    destruct (Hvalid row cell s Hrow Hcell Hs Hne) as [[n Hn] Hlen].
    rewrite (proj2 (int_Ok_iff s n)) in Hint by done. done.
  - intros e Hn.
    apply normalize_Raise in Hn as (row & cell & s & Hrow & Hcell & Hs & Hne & Hint).
    destruct (int_Raise_inv _ _ Hint) as [-> Hwhy].
    by exists row, cell, s.
Qed.

(** ** Dates *)

Lemma prefix_spec n s : String.prefix n s = true <-> exists rest, s = n +:+ rest.
Proof.
  revert s. induction n as [|a n IH]; intros s.
  - destruct s; simpl; split; eauto.
  - destruct s as [|b s]; simpl.
    + split; [discriminate|intros [r H]; discriminate].
    + destruct (ascii_dec a b) as [->|Hne].
      * rewrite IH. split; intros [r H]; exists r; [by rewrite H|by injection H].
      * split; [discriminate|intros [r H]; injection H; congruence].
Qed.

Lemma contains_spec n s : contains n s = true <-> exists a b, s = a +:+ n +:+ b.
Proof.
  split.
  - induction s as [|c s IH]; cbn [contains]; rewrite orb_true_iff, prefix_spec.
    + intros [[b ->]|?]; [by exists "", b|done].
    + intros [[b ->]|(a & b & ->)%IH]; [by exists "", b|by exists (String c a), b].
  - intros (a & b & ->). induction a as [|c a IH].
    + assert (String.prefix n (n +:+ b) = true) as Hp by (apply prefix_spec; eauto).
      change (contains n (n +:+ b) = true). revert Hp.
      destruct (n +:+ b); intros Hp; cbn [contains]; by rewrite Hp.
    + change (contains n (String c (a +:+ n +:+ b)) = true).
      cbn [contains]. by rewrite IH, orb_true_r.
Qed.

Lemma chars_app a b : chars (a +:+ b) = chars a ++ chars b.
Proof. induction a as [|c a IH]; simpl; [done|]. by rewrite IH. Qed.

(** The first piece of a split ends before the first separator. *)
Lemma split_first sep s :
  exists p ps, split sep s = p :: ps /\ (sep ∉ chars p) /\
    (s = p \/ exists rest, s = p +:+ String sep rest).
Proof.
  induction s as [|c s (p & ps & IH & Hp & Hs)]; simpl.
  - exists "", []. split; [done|]. split; [apply not_elem_of_nil|by left].
  - destruct (Ascii.eqb_spec c sep) as [->|Hne].
    + exists "", (split sep s). split; [done|]. split; [apply not_elem_of_nil|].
      right. by exists s.
    + rewrite IH. exists (String c p), ps. split; [done|]. split.
      * simpl. intros [?|?]%elem_of_cons; [congruence|done].
      * destruct Hs as [->|[rest ->]]; [by left|right; by exists rest].
Qed.

Lemma coerce_DateTime_midnight txt :
  (exists a b, txt = a +:+ "T00:00:00" +:+ b) ->
  exists date rest,
    txt = date +:+ "T" +:+ rest /\ ("T"%char ∉ chars date) /\
    coerce "DateTime" txt = Ok (VStr date).
Proof.
  intros Hsub. unfold coerce. simpl.
  rewrite (proj2 (contains_spec _ _) Hsub).
  destruct Hsub as (a & b & ->).
  replace (str_truthy _) with true by (by destruct a).
  simpl. destruct (split_first "T" (a +:+ "T00:00:00" +:+ b)) as (p & ps & -> & Hp & Hs).
  destruct Hs as [<-|[rest Hrest]].
  - destruct Hp. rewrite chars_app. simpl. apply elem_of_app. right. by left.
  - by exists p, rest.
Qed.

Lemma coerce_DateTime_other txt :
  ~ (exists a b, txt = a +:+ "T00:00:00" +:+ b) -> coerce "DateTime" txt = Ok (VStr txt).
Proof.
  intros Hsub. unfold coerce. simpl.
  destruct (contains "T00:00:00" txt) eqn:Hc.
  - by apply contains_spec in Hc.
  - by rewrite andb_false_r.
Qed.

Lemma cell_value_DateTime cell d :
  find cell (ss "Data") = Some d -> get d (ss "Type") = Some "DateTime" ->
  cell_value cell = coerce "DateTime" (default "" (text d)).
Proof.
  intros Hd Hty. unfold cell_value, data_type, data_text, get_or. rewrite Hd, Hty. simpl.
  by destruct (text d) as [[|c t]|].
Qed.

(** C10: a [DateTime] text that holds [T00:00:00] anywhere is cut at its
    first [T]: the value is the part before it.  So
    [2024-01-05T00:00:00.500] gives [2024-01-05]. *)
Theorem C10_midnight_anywhere_cuts_at_first_T (cell d : element) (txt : string) :
  find cell (ss "Data") = Some d -> get d (ss "Type") = Some "DateTime" ->
  text d = Some txt ->
  (exists a b, txt = a +:+ "T00:00:00" +:+ b) ->
  (exists date rest,
     txt = date +:+ "T" +:+ rest /\ ("T"%char ∉ chars date) /\
     cell_value cell = Ok (VStr date)) /\
  coerce "DateTime" "2024-01-05T00:00:00.500" = Ok (VStr "2024-01-05").
Proof.
  intros Hd Hty Htxt Hsub. split; [|done].
  rewrite (cell_value_DateTime _ _ Hd Hty), Htxt. simpl.
  by apply coerce_DateTime_midnight.
Qed.

(** C4, amended: a [DateTime] text that holds [T00:00:00] (at its end or
    anywhere else) is cut at its first [T]; when the text is a date
    without a [T] followed by [T00:00:00], the value is that date; any
    other text is passed through.  [2024-01-05T00:00:00] gives
    [2024-01-05] and [2024-01-05T08:30:00] stays as it is. *)
Theorem C4_midnight_is_cut_other_texts_pass (cell d : element) :
  find cell (ss "Data") = Some d -> get d (ss "Type") = Some "DateTime" ->
  let txt := default "" (text d) in
  ((exists a b, txt = a +:+ "T00:00:00" +:+ b) ->
   exists date rest,
     txt = date +:+ "T" +:+ rest /\ ("T"%char ∉ chars date) /\
     cell_value cell = Ok (VStr date)) /\
  (forall date, "T"%char ∉ chars date -> txt = date +:+ "T00:00:00" ->
     cell_value cell = Ok (VStr date)) /\
  (~ (exists a b, txt = a +:+ "T00:00:00" +:+ b) -> cell_value cell = Ok (VStr txt)) /\
  coerce "DateTime" "2024-01-05T00:00:00" = Ok (VStr "2024-01-05") /\
  coerce "DateTime" "2024-01-05T08:30:00" = Ok (VStr "2024-01-05T08:30:00").
Proof.
  intros Hd Hty txt. rewrite (cell_value_DateTime _ _ Hd Hty). fold txt.
  split; [apply coerce_DateTime_midnight|]. split; [|split; [apply coerce_DateTime_other|done]].
  intros date Hdate Htxt.
  destruct (coerce_DateTime_midnight txt) as (p & rest & Hp & HT & ->).
  { exists date, "". rewrite Htxt. f_equal. }
  do 2 f_equal. rewrite Htxt in Hp. clear -Hp Hdate HT.
  revert p Hp HT. induction date as [|c date IH]; intros [|c' p] Hp HT; simpl in *.
  - done.
  - injection Hp as <- _. destruct HT. by left.
  - injection Hp as -> _. destruct Hdate. by left.
  - injection Hp as <- Hp. f_equal. apply IH; [|done|].
    + intros ?. apply Hdate. by right.
    + intros ?. apply HT. by right.
Qed.

(** ** The claims on the sample documents *)

Import Samples.

(** The sheet of [people] is handed to the writer and is rectangular. *)
Lemma C1_witness :
  let parse := fun _ : string => Ok people in
  let write_sheets := fun (_ : string) (_ : list (string * DataFrame)) => Ok () in
  exists worksheets,
    writer_call (parse_excel_xml parse write_sheets "in.xml" "out.xlsx")
    = Some ("out.xlsx", worksheets) /\
    forall name df, (name, df) ∈ worksheets ->
      Forall (fun r => length r = length (columns df)) (data df).
Proof.
  intros parse write_sheets. eexists. split; [vm_compute; reflexivity|].
  apply (proj2 C1_every_sheet_is_rectangular parse write_sheets "in.xml" "out.xlsx" "out.xlsx").
  vm_compute. reflexivity.
Defined.

(** After one value, a cell at position 4 leaves two empty strings before
    its own value; a cell without a position goes next to the value. *)
Lemma C2_witness :
  cell_step ([VStr "a"], 1) (text_cell (Some "4") "x")
  = Ok ([VStr "a"; VStr ""; VStr ""; VStr "x"], 4) /\
  cell_step ([VStr "a"], 1) (text_cell None "x") = Ok ([VStr "a"; VStr "x"], 2).
Proof.
  split.
  - destruct (C2_gap_before_declared_position (text_cell (Some "4") "x") [VStr "a"] 1)
      as (v & Hv & Hgap & _).
    vm_compute in Hv. injection Hv as <-.
    apply (Hgap "4" 4); [vm_compute; reflexivity|discriminate|vm_compute; reflexivity|lia].
  - destruct (C2_gap_before_declared_position (text_cell None "x") [VStr "a"] 1)
      as (v & Hv & _ & Happend).
    vm_compute in Hv. injection Hv as <-.
    apply Happend. intros s Hs. vm_compute in Hs. discriminate.
Defined.

(** [n/a] in a [Number] cell gives [0.0]. *)
Lemma C3_witness :
  exists v, cell_value (typed_cell "Number" "n/a") = Ok v /\ v = VFloat (S754_zero false).
Proof.
  destruct (C3_number_degrades_to_zero (typed_cell "Number" "n/a")
              (Data (Some "Number") (Some "n/a")))
    as (v & Hv & Hzero); [vm_compute; reflexivity|vm_compute; reflexivity|].
  exists v. split; [exact Hv|]. apply Hzero. right. eexists. vm_compute. reflexivity.
Defined.

(** A midnight with a fraction of a second: the text does not end with
    [T00:00:00], and yet it is cut. *)
Lemma C4_counterexample :
  let txt := "2024-01-05T00:00:00.000" in
  (forall date, txt <> date +:+ "T00:00:00") /\
  cell_value (typed_cell "DateTime" txt) = Ok (VStr "2024-01-05") /\
  VStr "2024-01-05" <> VStr txt.
Proof.
  split; [|split; [vm_compute; reflexivity|discriminate]].
  intros date H. apply (f_equal (fun s => rev (chars s))) in H.
  rewrite chars_app, rev_app_distr in H. simpl in H. discriminate.
Qed.

(** The midnight of the claim. *)
Lemma C4_witness :
  cell_value (typed_cell "DateTime" "2024-01-05T00:00:00") = Ok (VStr "2024-01-05").
Proof.
  destruct (C4_midnight_is_cut_other_texts_pass
              (typed_cell "DateTime" "2024-01-05T00:00:00")
              (Data (Some "DateTime") (Some "2024-01-05T00:00:00")))
    as (_ & Hdate & _); [vm_compute; reflexivity|vm_compute; reflexivity|].
  apply Hdate; [|reflexivity].
  vm_compute. intros H. repeat (apply elem_of_cons in H as [H|H]; [discriminate|]).
  by apply elem_of_nil in H.
Defined.

(** Of the three rows of [people_table] the blank one is not kept, and
    the width is 2. *)
Lemma C5_witness :
  exists max_cols,
    read_rows people_table
    = Ok ([[VStr "Name"; VStr "Age"];
           [VStr "Alice"; VFloat (S754_finite false 8444249301319680 (-48))]], max_cols) /\
    max_cols = 2%nat.
Proof.
  destruct (C5_rows_with_a_true_value_are_kept people_table
              [[VStr "Name"; VStr "Age"];
               [VStr "Alice"; VFloat (S754_finite false 8444249301319680 (-48))];
               [VStr ""; VStr ""]])
    as (rows_data & max_cols & Hread & -> & _ & _ & _ & ->).
  - repeat constructor.
  - exists 2%nat. split; [exact Hread|reflexivity].
Defined.

(** No worksheet of [lonely] has two rows: nothing is written. *)
Lemma C6_witness :
  parse_excel_xml (fun _ => Ok lonely) (fun _ _ => Ok ()) "in.xml" "out.xlsx"
  = {| writer_call := None; printed := NoDataFound "in.xml"; returned := false |}.
Proof.
  apply (proj2 (proj2 C6_sheets_need_two_rows) _ _ _ _ lonely eq_refl).
  intros worksheet table Hin.
  change (worksheet ∈ [single_row; blank_rows; no_table]) in Hin.
  repeat (apply elem_of_cons in Hin as [->|Hin]); [| | |by apply elem_of_nil in Hin].
  - intros [= <-]. eexists. split; [vm_compute; reflexivity|simpl; lia].
  - intros [= <-]. eexists. split; [vm_compute; reflexivity|simpl; lia].
  - discriminate.
Defined.

(** A first row that starts with the number 0: its [str] is [0.0], which
    is not blank, and yet the header is [Column1]. *)
Lemma C7_counterexample :
  exists df,
    collect_worksheets zero_header = Ok [("Stats", df)] /\
    columns df = ["Column1"; "City"] /\
    cell_value (typed_cell "Number" "0") = Ok (VFloat (S754_zero false)) /\
    str (VFloat (S754_zero false)) = "0.0".
Proof. eexists. repeat split; vm_compute; reflexivity. Qed.

(** A negative zero is numbered; a string of one space is kept. *)
Lemma C7_witness :
  make_headers [VStr " "; VFloat (S754_zero true); VStr ""] !! 1%nat = Some "Column2" /\
  make_headers [VStr " "; VFloat (S754_zero true); VStr ""] !! 0%nat = Some " ".
Proof.
  destruct (C7_false_headers_are_numbered [VStr " "; VFloat (S754_zero true); VStr ""])
    as (_ & Hat & _).
  split.
  - apply (proj1 (Hat 1%nat _ eq_refl)). right. by exists true.
  - by apply (proj1 (proj2 (Hat 0%nat _ eq_refl)) " ").
Defined.

(** An [Index] that is no number: the normalizer raises the [ValueError]
    of [int]. *)
Lemma C8_counterexample : normalize bad_index = Raise (InvalidIntLiteral "abc").
Proof. vm_compute. reflexivity. Qed.

(** The one [Index] of [sparse_table] is a literal of one digit: the table
    has a grid. *)
Lemma C8_witness : exists grid, normalize sparse_table = Ok grid.
Proof.
  apply (proj1 (C8_only_a_bad_index_raises sparse_table)).
  intros row cell s Hrow Hcell Hs Hne.
  change (row ∈ [Row [text_cell None "a"; text_cell (Some "3") "c"]]) in Hrow.
  apply list_elem_of_singleton in Hrow as ->.
  change (cell ∈ [text_cell None "a"; text_cell (Some "3") "c"]) in Hcell.
  repeat (apply elem_of_cons in Hcell as [->|Hcell]); [| |by apply elem_of_nil in Hcell].
  - vm_compute in Hs. discriminate.
  - vm_compute in Hs. injection Hs as <-.
    split; [eexists; vm_compute; reflexivity|vm_compute; discriminate].
Defined.

(** An [Index] that is a number of 4301 digits: [int] converts no text of
    that length, and the normalizer raises its [ValueError]. *)
Example long_index_raises :
  int_literal (strip (chars (of_chars ("1"%char :: replicate 4300 "0"%char))))
  = Some (10 ^ 4300) /\
  normalize long_index
  = Raise (InvalidIntLiteral (of_chars ("1"%char :: replicate 4300 "0"%char))).
Proof. split; vm_compute; reflexivity. Qed.

(** A cell at position 2 after three values is appended as the fourth. *)
Lemma C9_witness :
  exists v,
    cell_value (text_cell (Some "2") "x") = Ok v /\
    cell_step ([VStr "a"; VStr "b"; VStr "c"], 3) (text_cell (Some "2") "x")
    = Ok ([VStr "a"; VStr "b"; VStr "c"] ++ [v], 3 + 1).
Proof.
  apply (C9_backward_position_is_ignored _ _ _ "2" 2);
    [vm_compute; reflexivity|discriminate|vm_compute; reflexivity|lia].
Defined.

(** The midnight with a fraction of the claim. *)
Lemma C10_witness :
  exists date rest,
    "2024-01-05T00:00:00.500" = date +:+ "T" +:+ rest /\ ("T"%char ∉ chars date) /\
    cell_value (typed_cell "DateTime" "2024-01-05T00:00:00.500") = Ok (VStr date).
Proof.
  apply (C10_midnight_anywhere_cuts_at_first_T
           (typed_cell "DateTime" "2024-01-05T00:00:00.500")
           (Data (Some "DateTime") (Some "2024-01-05T00:00:00.500")));
    [vm_compute; reflexivity|vm_compute; reflexivity|reflexivity|].
  by exists "2024-01-05", ".500".
Defined.

(** The scenario of the sheet [Data]: the blank row is dropped, the age
    is a number, and the sheet has the header [Name, Age] and one row. *)
Example people_sheet :
  collect_worksheets people
  = Ok [("Data", {| columns := ["Name"; "Age"];
                    data := [[VStr "Alice";
                              VFloat (S754_finite false 8444249301319680 (-48))]] |})]
  /\ float_repr (S754_finite false 8444249301319680 (-48)) = "30.0".
Proof. split; vm_compute; reflexivity. Qed.

(** * More properties of the converter *)

(** ** Loops and dictionaries *)

Lemma for_each_app {S A : Type} (body : S -> A -> result S) xs ys st :
  for_each body st (xs ++ ys) = for_each body st xs ≫= fun st' => for_each body st' ys.
Proof.
  revert st. induction xs as [|x xs IH]; intros st; [done|].
  rewrite <- app_comm_cons, !for_each_cons.
  destruct (body st x) as [s1|e]; simpl; [apply IH|done].
Qed.

(** A loop with a round that raises in every state raises. *)
Lemma for_each_raises {S A : Type} (body : S -> A -> result S) xs x :
  x ∈ xs -> (forall s, exists e, body s x = Raise e) ->
  forall st, exists e, for_each body st xs = Raise e.
Proof.
  intros Hx Hraise. induction xs as [|y xs IH]; intros st.
  - by apply elem_of_nil in Hx.
  - rewrite for_each_cons. destruct (body st y) as [s1|e] eqn:Hy; simpl; [|eauto].
    apply elem_of_cons in Hx as [->|Hx]; [|by apply IH].
    destruct (Hraise st) as [e He]. congruence.
Qed.

Lemma dict_set_keys {V : Type} k (v : V) d :
  (dict_set k v d).*1 = if bool_decide (k ∈ d.*1) then d.*1 else d.*1 ++ [k].
Proof.
  induction d as [|[k0 v0] d IH]; [done|]. cbn [dict_set].
  destruct (decide (k0 = k)) as [->|Hne].
  - rewrite bool_decide_eq_true_2 by done.
    rewrite (bool_decide_eq_true_2 (k ∈ _)) by (by left). done.
  - rewrite bool_decide_eq_false_2 by done. rewrite !fmap_cons, IH. simpl.
    destruct (decide (k ∈ d.*1)) as [Hin|Hnin].
    + rewrite (bool_decide_eq_true_2 _ Hin).
      by rewrite (bool_decide_eq_true_2 (k ∈ k0 :: _)) by (by right).
    + rewrite (bool_decide_eq_false_2 _ Hnin).
      rewrite (bool_decide_eq_false_2 (k ∈ k0 :: _)); [done|].
      intros [?|?]%elem_of_cons; [by subst|done].
Qed.

Lemma dict_set_elem_same {V : Type} k (v : V) d : (k, v) ∈ dict_set k v d.
Proof.
  induction d as [|[k0 v0] d IH]; simpl; [by left|].
  case_bool_decide; [by left|by right].
Qed.

Lemma dict_set_elem_other {V : Type} k (v : V) d k' v' :
  k' <> k -> (k', v') ∈ d -> (k', v') ∈ dict_set k v d.
Proof.
  intros Hne. induction d as [|[k0 v0] d IH]; simpl; [by intros ?%elem_of_nil|].
  intros [[= -> ->]|Hin]%elem_of_cons.
  - rewrite bool_decide_eq_false_2 by done. by left.
  - case_bool_decide; right; [done|by apply IH].
Qed.

Lemma int_Raise s e : int s = Raise e -> e = InvalidIntLiteral s.
Proof. intros H. by apply int_Raise_inv in H as [-> _]. Qed.

(** ** Which sheets a run collects *)

Lemma worksheet_step_Raise worksheets worksheet e :
  worksheet_step worksheets worksheet = Raise e ->
  exists table, find worksheet (ss "Table") = Some table /\ normalize table = Raise e.
Proof.
  unfold worksheet_step. destruct (find worksheet (ss "Table")) as [table|]; [|done].
  destruct (normalize table) as [grid|e'] eqn:Hn; simpl.
  - by destruct (make_sheet grid).
  - intros [= <-]. eauto.
Qed.

Lemma worksheet_step_raises worksheets worksheet table e :
  find worksheet (ss "Table") = Some table -> normalize table = Raise e ->
  worksheet_step worksheets worksheet = Raise e.
Proof. intros Ht Hn. unfold worksheet_step. by rewrite Ht, Hn. Qed.

Lemma make_sheet_long grid df : make_sheet grid = Some df -> (2 <= length grid)%nat.
Proof.
  intros Hdf. destruct (decide (2 <= length grid)%nat); [done|].
  rewrite make_sheet_short in Hdf by lia. done.
Qed.

(** Every collected sheet is the sheet of a worksheet of the document. *)
Lemma collect_worksheets_sound root worksheets :
  collect_worksheets root = Ok worksheets ->
  forall name df, (name, df) ∈ worksheets ->
  exists worksheet table grid,
    worksheet ∈ findall root (ss "Worksheet") /\
    name = get_or worksheet (ss "Name") "Sheet" /\
    find worksheet (ss "Table") = Some table /\
    normalize table = Ok grid /\ make_sheet grid = Some df.
Proof.
  unfold collect_worksheets.
  apply (for_each_invariant (fun wss => forall name df, (name, df) ∈ wss -> _)).
  - intros wss w wss' Hw Hwss Hstep name df Hin.
    apply worksheet_step_Ok in Hstep as [[-> _]|(table & grid & df' & Ht & Hn & Hdf & ->)];
      [by apply Hwss|].
    apply dict_set_elem in Hin as [[= -> ->]|Hin]; [|by apply Hwss].
    by exists w, table, grid.
  - intros name df Hin. by apply elem_of_nil in Hin.
Qed.

(** What a run that reaches the writer has done before. *)
Lemma parse_excel_xml_written parse write_sheets xml_file xlsx_file path worksheets :
  writer_call (parse_excel_xml parse write_sheets xml_file xlsx_file) = Some (path, worksheets) ->
  path = xlsx_file /\ worksheets <> [] /\
  exists root, parse xml_file = Ok root /\ collect_worksheets root = Ok worksheets.
Proof.
  unfold parse_excel_xml.
  destruct (parse xml_file) as [root|e]; simpl; [|discriminate].
  destruct (collect_worksheets root) as [wss|e] eqn:Hwss; simpl; [|discriminate].
  case_bool_decide as Hnil; simpl; [discriminate|].
  destruct (write_sheets xlsx_file wss); intros [= <- <-]; eauto.
Qed.

(** X1: every sheet that a run hands to the writer comes from a worksheet
    of the parsed document that has a table: its name is the [Name] of the
    worksheet, or [Sheet] when there is none; its header is made from the
    first row of the grid of the table and its data are the other rows of
    the grid, of which there is one at least. *)
Theorem sheets_come_from_worksheets
    parse write_sheets xml_file xlsx_file path worksheets name df :
  writer_call (parse_excel_xml parse write_sheets xml_file xlsx_file) = Some (path, worksheets) ->
  (name, df) ∈ worksheets ->
  exists root worksheet table headers rest,
    parse xml_file = Ok root /\
    worksheet ∈ findall root (ss "Worksheet") /\
    name = default "Sheet" (get worksheet (ss "Name")) /\
    find worksheet (ss "Table") = Some table /\
    normalize table = Ok (headers :: rest) /\ rest <> [] /\
    columns df = make_headers headers /\ data df = rest.
Proof.
  intros Hcall Hin.
  apply parse_excel_xml_written in Hcall as (_ & _ & root & Hroot & Hwss).
  destruct (collect_worksheets_sound _ _ Hwss _ _ Hin)
    as (w & table & grid & Hw & -> & Ht & Hn & Hdf).
  apply make_sheet_Some in Hdf as (headers & rest & -> & Hrest & ->).
  by exists root, w, table, headers, rest.
Qed.

(** The names collected by the loop over the worksheets, from any state:
    the names that were there, then new names in the order of the
    worksheets, and no name twice. *)
Lemma worksheets_loop_names ws :
  forall wss wss', for_each worksheet_step wss ws = Ok wss' ->
  exists added,
    wss'.*1 = wss.*1 ++ added /\
    added `sublist_of` ((fun w => get_or w (ss "Name") "Sheet") <$> ws) /\
    (NoDup wss.*1 -> NoDup wss'.*1).
Proof.
  induction ws as [|w ws IH]; intros wss wss' Hrun.
  - injection Hrun as <-. exists []. rewrite app_nil_r. by repeat split.
  - rewrite for_each_cons in Hrun. apply bind_Ok_inv in Hrun as (wss1 & Hstep & Hrun).
    destruct (IH _ _ Hrun) as (added & Hkeys & Hsub & Hnodup).
    apply worksheet_step_Ok in Hstep as [[-> _]|(table & grid & df & _ & _ & _ & ->)].
    + exists added. split; [done|]. split; [by apply sublist_cons|done].
    + rewrite dict_set_keys in Hkeys, Hnodup. case_bool_decide as Hin.
      * exists added. split; [done|]. split; [by apply sublist_cons|done].
      * exists (get_or w (ss "Name") "Sheet" :: added).
        split; [by rewrite Hkeys, <- app_assoc|]. split; [by apply sublist_skip|].
        intros Hnd. apply Hnodup. apply NoDup_app. split; [done|]. split.
        -- intros k Hk ->%list_elem_of_singleton. done.
        -- apply NoDup_singleton.
Qed.

(** X2: the sheets that a run hands to the writer have names that differ
    from one another, and they stand in the order in which worksheets of
    these names stand in the document. *)
Theorem sheet_names_are_distinct_and_in_document_order
    parse write_sheets xml_file xlsx_file path worksheets :
  writer_call (parse_excel_xml parse write_sheets xml_file xlsx_file) = Some (path, worksheets) ->
  exists root,
    parse xml_file = Ok root /\
    NoDup worksheets.*1 /\
    worksheets.*1 `sublist_of`
      ((fun w => default "Sheet" (get w (ss "Name"))) <$> findall root (ss "Worksheet")).
Proof.
  intros Hcall.
  apply parse_excel_xml_written in Hcall as (_ & _ & root & Hroot & Hwss).
  exists root. split; [done|].
  destruct (worksheets_loop_names _ _ _ Hwss) as (added & Hkeys & Hsub & Hnodup).
  simpl in Hkeys. rewrite Hkeys. split; [|done].
  rewrite <- Hkeys. apply Hnodup. constructor.
Qed.

(** X3: of several worksheets with one name, the last one that has a
    sheet gives the sheet of that name. *)
Theorem last_worksheet_of_a_name_wins
    root worksheets before worksheet after table grid df :
  collect_worksheets root = Ok worksheets ->
  findall root (ss "Worksheet") = before ++ worksheet :: after ->
  find worksheet (ss "Table") = Some table ->
  normalize table = Ok grid -> make_sheet grid = Some df ->
  (forall w table' grid',
     w ∈ after ->
     default "Sheet" (get w (ss "Name")) = default "Sheet" (get worksheet (ss "Name")) ->
     find w (ss "Table") = Some table' -> normalize table' = Ok grid' ->
     (length grid' < 2)%nat) ->
  (default "Sheet" (get worksheet (ss "Name")), df) ∈ worksheets.
Proof.
  intros Hrun Hsplit Ht Hn Hdf Hlater. unfold collect_worksheets in Hrun.
  rewrite Hsplit, for_each_app in Hrun.
  apply bind_Ok_inv in Hrun as (wss0 & _ & Hrun).
  rewrite for_each_cons in Hrun. apply bind_Ok_inv in Hrun as (wss1 & Hstep & Hrun).
  revert Hrun. apply for_each_invariant.
  - intros wss w wss' Hw Hin Hstep'.
    apply worksheet_step_Ok in Hstep' as [[-> _]|(table' & grid' & df' & Ht' & Hn' & Hdf' & ->)];
      [done|].
    apply dict_set_elem_other; [|done]. intros Hname.
    apply make_sheet_long in Hdf'.
    specialize (Hlater w table' grid' Hw (eq_sym Hname) Ht' Hn'). lia.
  - unfold worksheet_step in Hstep. rewrite Ht in Hstep. simpl in Hstep.
    rewrite Hn in Hstep. simpl in Hstep. rewrite Hdf in Hstep. injection Hstep as <-.
    apply dict_set_elem_same.
Qed.

(** ** Errors of a run *)

Lemma cell_step_raises st cell s e :
  get cell (ss "Index") = Some s -> s <> "" -> int s = Raise e ->
  cell_step st cell = Raise e.
Proof.
  intros Hs Hne He. unfold cell_step, expand_index. rewrite Hs.
  destruct s; [done|]. simpl. by rewrite He.
Qed.

(** A table with an [Index] that [int] rejects has no grid. *)
Lemma normalize_raises table row cell s e :
  row ∈ findall table (ss "Row") -> cell ∈ findall row (ss "Cell") ->
  get cell (ss "Index") = Some s -> s <> "" -> int s = Raise e ->
  exists e', normalize table = Raise e'.
Proof.
  intros Hrow Hcell Hs Hne He.
  assert (exists e', build_row row = Raise e') as [e1 Hbuild].
  { unfold build_row.
    destruct (for_each_raises cell_step _ cell Hcell) with (st := (@nil value, 0))
      as [e' ->]; [|by eexists].
    intros st. exists e. by apply (cell_step_raises _ _ s). }
  unfold normalize, read_rows.
  destruct (for_each_raises row_step _ row Hrow) with (st := (@nil (list value), 0%nat))
    as [e' ->]; [|by eexists].
  intros [rows_data max_cols]. exists e1. unfold row_step. by rewrite Hbuild.
Qed.

(** X4: a run that cannot parse its input, or that parses a document in
    which some cell of the table of some worksheet has an [Index] that
    [int] rejects, opens no writer, not even for the worksheets before
    that one, prints the error and returns [False]. *)
Theorem one_error_stops_the_run parse write_sheets xml_file xlsx_file :
  (forall e, parse xml_file = Raise e ->
     parse_excel_xml parse write_sheets xml_file xlsx_file
     = {| writer_call := None; printed := ErrorConverting e; returned := false |}) /\
  (forall root worksheet table row cell s e,
     parse xml_file = Ok root ->
     worksheet ∈ findall root (ss "Worksheet") ->
     find worksheet (ss "Table") = Some table ->
     row ∈ findall table (ss "Row") -> cell ∈ findall row (ss "Cell") ->
     get cell (ss "Index") = Some s -> s <> "" -> int s = Raise e ->
     exists s',
       parse_excel_xml parse write_sheets xml_file xlsx_file
       = {| writer_call := None;
            printed := ErrorConverting (InvalidIntLiteral s');
            returned := false |}).
Proof.
  split.
  - intros e He. unfold parse_excel_xml. by rewrite He.
  - intros root w table row cell s e Hroot Hw Ht Hrow Hcell Hs Hne He.
    destruct (normalize_raises _ _ _ _ _ Hrow Hcell Hs Hne He) as [e1 Hn].
    unfold parse_excel_xml. rewrite Hroot. simpl.
    destruct (for_each_raises worksheet_step _ w Hw) with (st := @nil (string * DataFrame))
      as [e' He'].
    { intros wss. exists e1. by apply (worksheet_step_raises _ _ table). }
    unfold collect_worksheets. rewrite He'.
    apply for_each_Raise in He' as (wss & w' & _ & Hstep).
    apply worksheet_step_Raise in Hstep as (table' & _ & Hn').
    apply normalize_Raise in Hn' as (_ & _ & s' & _ & _ & _ & _ & Hint).
    apply int_Raise in Hint as ->. by exists s'.
Qed.

(** ** The command *)

(** X5: the command stops on an input path that is no file, whatever the
    parser and the writer would do; and when it hands sheets to the
    writer, the input is a file that parses, the sheets go to the output
    path, and some worksheet of the document has a table with a grid of
    two rows or more. *)
Theorem command_writes_only_what_it_read isfile parse write_sheets xml_file xlsx_file :
  (isfile xml_file = false ->
   main isfile parse write_sheets xml_file xlsx_file = InputMissing xml_file) /\
  (forall path worksheets,
     written (main isfile parse write_sheets xml_file xlsx_file) = Some (path, worksheets) ->
     isfile xml_file = true /\ path = xlsx_file /\
     exists root worksheet table grid,
       parse xml_file = Ok root /\ collect_worksheets root = Ok worksheets /\
       worksheet ∈ findall root (ss "Worksheet") /\
       find worksheet (ss "Table") = Some table /\
       normalize table = Ok grid /\ (2 <= length grid)%nat).
Proof.
  unfold main. split; [by intros ->|].
  intros path worksheets. destruct (isfile xml_file); simpl; [|discriminate].
  intros Hcall. apply parse_excel_xml_written in Hcall as (-> & Hne & root & Hroot & Hwss).
  split; [done|]. split; [done|].
  destruct worksheets as [|[name df] rest]; [done|].
  destruct (collect_worksheets_sound _ _ Hwss name df)
    as (w & table & grid & Hw & _ & Ht & Hn & Hdf); [by left|].
  exists root, w, table, grid. repeat split; try done. by apply make_sheet_long in Hdf.
Qed.

(** ** How a row is built *)

Lemma expand_index_Ok cell row_data K row_data' K' :
  expand_index cell (row_data, K) = Ok (row_data', K') ->
  exists gap : nat,
    row_data' = row_data ++ replicate gap (VStr "") /\ K' = K + Z.of_nat gap /\
    forall s P, get cell (ss "Index") = Some s -> s <> "" -> int s = Ok P ->
      gap = Z.to_nat (P - 1 - K).
Proof.
  unfold expand_index. destruct (get cell (ss "Index")) as [[|c s]|] eqn:Hs; simpl.
  - intros [= <- <-]. exists 0%nat. rewrite app_nil_r. split; [done|]. split; [lia|].
    by intros s' P [= <-].
  - destruct (int (String c s)) as [n|e] eqn:Hn; simpl; [|done].
    rewrite fill_gaps_spec. intros [= <- <-]. exists (Z.to_nat (n - 1 - K)).
    split; [done|]. split; [lia|]. intros s' P [= <-] _ HP. congruence.
  - intros [= <- <-]. exists 0%nat. rewrite app_nil_r. split; [done|]. split; [lia|done].
Qed.

Lemma cell_step_Ok cell row_data K row_data' K' :
  cell_step (row_data, K) cell = Ok (row_data', K') ->
  exists (gap : nat) v,
    cell_value cell = Ok v /\
    row_data' = row_data ++ replicate gap (VStr "") ++ [v] /\
    K' = K + Z.of_nat gap + 1 /\
    forall s P, get cell (ss "Index") = Some s -> s <> "" -> int s = Ok P ->
      gap = Z.to_nat (P - 1 - K).
Proof.
  unfold cell_step. intros H. apply bind_Ok_inv in H as ([row1 K1] & Hexp & H).
  apply expand_index_Ok in Hexp as (gap & -> & -> & Hgap).
  apply bind_Ok_inv in H as (v & Hv & [= <- <-]).
  exists gap, v. by rewrite <- app_assoc.
Qed.

(** The loop over the cells, from any state: values in the order of the
    cells, each after its gap; the count grows as the row does. *)
Lemma cells_loop_Ok cells :
  forall row_data K row_data' K',
    for_each cell_step (row_data, K) cells = Ok (row_data', K') ->
    exists gaps vs,
      Forall2 (fun cell v => cell_value cell = Ok v) cells vs /\
      length gaps = length vs /\
      row_data' = row_data
                  ++ concat (zip_with (fun gap v => replicate gap (VStr "") ++ [v]) gaps vs) /\
      K' - K = Z.of_nat (length row_data') - Z.of_nat (length row_data).
Proof.
  induction cells as [|cell cells IH]; intros row_data K row_data' K' Hrun.
  - injection Hrun as <- <-. exists [], []. rewrite app_nil_r.
    split; [constructor|]. split; [done|]. split; [done|lia].
  - rewrite for_each_cons in Hrun. apply bind_Ok_inv in Hrun as ([row1 K1] & Hstep & Hrun).
    apply cell_step_Ok in Hstep as (gap & v & Hv & -> & -> & _).
    apply IH in Hrun as (gaps & vs & Hvs & Hlen & -> & HK).
    exists (gap :: gaps), (v :: vs). split; [by constructor|]. split; [simpl; lia|].
    split; [simpl; by rewrite <- !app_assoc|].
    rewrite !length_app, length_replicate in *. simpl in *. lia.
Qed.

(** X6: the values of the cells of a row stand in the row in the order of
    the cells, each after a gap of empty strings (of no length, for most
    cells), and nothing else stands in the row. *)
Theorem cells_keep_their_order (row : element) (row_data : list value) :
  build_row row = Ok row_data ->
  exists gaps vs,
    Forall2 (fun cell v => cell_value cell = Ok v) (findall row (ss "Cell")) vs /\
    length gaps = length vs /\
    row_data = concat (zip_with (fun gap v => replicate gap (VStr "") ++ [v]) gaps vs).
Proof.
  unfold build_row.
  destruct (for_each cell_step _ _) as [[rd K]|e] eqn:Hrun; [|done].
  intros [= <-]. apply cells_loop_Ok in Hrun as (gaps & vs & Hvs & Hlen & -> & _).
  by exists gaps, vs.
Qed.

Lemma cell_step_absent cell row_data K v :
  (forall s, get cell (ss "Index") = Some s -> s = "") -> cell_value cell = Ok v ->
  cell_step (row_data, K) cell = Ok (row_data ++ [v], K + 1).
Proof.
  intros Habsent Hv. unfold cell_step.
  rewrite (expand_index_absent _ _ Habsent). simpl. by rewrite Hv.
Qed.

Lemma cells_loop_dense cells :
  (forall cell s, cell ∈ cells -> get cell (ss "Index") = Some s -> s = "") ->
  forall row_data K,
  exists vs,
    Forall2 (fun cell v => cell_value cell = Ok v) cells vs /\
    for_each cell_step (row_data, K) cells = Ok (row_data ++ vs, K + Z.of_nat (length vs)).
Proof.
  induction cells as [|cell cells IH]; intros Hdense row_data K.
  - exists []. split; [constructor|]. simpl. rewrite app_nil_r. do 3 f_equal. lia.
  - destruct (cell_value_total cell) as [v Hv].
    destruct (IH (fun c s Hc => Hdense c s (list_elem_of_further _ _ _ Hc))
                 (row_data ++ [v]) (K + 1)) as (vs & Hvs & Hrun).
    exists (v :: vs). split; [by constructor|].
    replace (K + Z.of_nat (length (v :: vs))) with (K + 1 + Z.of_nat (length vs))
      by (cbn [length]; lia).
    rewrite for_each_cons, (cell_step_absent _ _ _ v); [|intros s; apply Hdense; by left|done].
    simpl. by rewrite Hrun, <- app_assoc.
Qed.

(** X7: a row in which no cell declares a position (no [Index], or empty
    ones only) is built without an error and is the list of the values of
    its cells. *)
Theorem dense_row_is_its_values (row : element) :
  (forall cell s, cell ∈ findall row (ss "Cell") ->
     get cell (ss "Index") = Some s -> s = "") ->
  exists row_data,
    build_row row = Ok row_data /\
    Forall2 (fun cell v => cell_value cell = Ok v) (findall row (ss "Cell")) row_data.
Proof.
  intros Hdense. destruct (cells_loop_dense _ Hdense [] 0) as (vs & Hvs & Hrun).
  exists vs. split; [|done]. unfold build_row. by rewrite Hrun.
Qed.

(** X8: in a row that is built, a cell that declares the position [P]
    when the row has fewer than [P] values puts its value into the column
    [P] of the row (the place [P - 1], counted from 0), after empty
    strings from the end of the row as it was. *)
Theorem declared_position_is_the_column
    (row : element) (row_data : list value) (before after : list element)
    (cell : element) (s : string) (P : Z) :
  build_row row = Ok row_data ->
  findall row (ss "Cell") = before ++ cell :: after ->
  get cell (ss "Index") = Some s -> s <> "" -> int s = Ok P ->
  exists row_before v,
    for_each cell_step ([], 0) before = Ok (row_before, Z.of_nat (length row_before)) /\
    cell_value cell = Ok v /\
    (Z.of_nat (length row_before) <= P - 1 ->
     row_data !! Z.to_nat (P - 1) = Some v /\
     take (length row_before) row_data = row_before /\
     forall i, (length row_before <= i < Z.to_nat (P - 1))%nat ->
       row_data !! i = Some (VStr "")).
Proof.
  unfold build_row. intros Hrow Hsplit Hs Hne HP.
  destruct (for_each cell_step _ _) as [[rd K]|e] eqn:Hrun; [|done].
  injection Hrow as <-. rewrite Hsplit, for_each_app in Hrun.
  apply bind_Ok_inv in Hrun as ([rd0 K0] & Hbefore & Hrun).
  rewrite for_each_cons in Hrun. apply bind_Ok_inv in Hrun as ([rd1 K1] & Hstep & Hafter).
  pose proof (cells_loop_Ok _ _ _ _ _ Hbefore) as (_ & _ & _ & _ & _ & HK0).
  simpl in HK0. assert (K0 = Z.of_nat (length rd0)) as -> by lia.
  apply cell_step_Ok in Hstep as (gap & v & Hv & -> & _ & Hgap).
  pose proof (Hgap s P Hs Hne HP) as ->. clear Hgap.
  apply cells_loop_Ok in Hafter as (gaps & vs & _ & _ & -> & _).
  exists rd0, v. split; [done|]. split; [done|]. intros Hle.
  set (g := Z.to_nat (P - 1 - Z.of_nat (length rd0))).
  assert (Z.to_nat (P - 1) = (length rd0 + g)%nat) as -> by lia.
  rewrite <- !app_assoc. split; [|split].
  - rewrite lookup_app_r by lia. rewrite lookup_app_r by (rewrite length_replicate; lia).
    rewrite length_replicate. by replace (length rd0 + g - length rd0 - g)%nat with 0%nat by lia.
  - by rewrite take_app_length.
  - intros i Hi. rewrite lookup_app_r by lia.
    rewrite lookup_app_l by (rewrite length_replicate; lia).
    apply lookup_replicate_2. lia.
Qed.

(** ** What the grid and the sheets hold *)

Lemma pad_row_app max_cols row_data :
  exists n, pad_row max_cols row_data = row_data ++ replicate n (VStr "").
Proof.
  unfold pad_row. destruct (length row_data <? max_cols)%nat; [eauto|].
  exists 0%nat. by rewrite app_nil_r.
Qed.

(** X9: when the rows of a table are built, the table has a grid, and the
    rows of the grid are the kept rows in their order, each with nothing
    but empty strings added at its end. *)
Theorem padding_only_appends_empty_strings (table : element) (built : list (list value)) :
  Forall2 (fun row rd => build_row row = Ok rd) (findall table (ss "Row")) built ->
  exists grid,
    normalize table = Ok grid /\
    Forall2 (fun rd g => exists n, g = rd ++ replicate n (VStr ""))
            (List.filter (existsb truthy) built) grid.
Proof.
  intros Hbuilt. unfold normalize. rewrite (read_rows_spec _ _ Hbuilt). simpl.
  eexists. split; [done|]. rewrite pad_rows_fmap. apply Forall2_fmap_r.
  apply Forall_Forall2_diag, Forall_forall. intros rd _. apply pad_row_app.
Qed.

(** Every row of a grid has a true value. *)
Lemma normalize_rows_true table grid :
  normalize table = Ok grid -> Forall (fun g => existsb truthy g = true) grid.
Proof.
  unfold normalize. intros H. apply bind_Ok_inv in H as ([rows_data max_cols] & Hread & H).
  injection H as <-.
  destruct (rows_loop_built _ _ _ Hread) as [built Hbuilt].
  rewrite (read_rows_spec _ _ Hbuilt) in Hread. injection Hread as <- <-.
  rewrite pad_rows_fmap. apply Forall_fmap, Forall_forall. intros rd Hrd.
  apply list_elem_of_In, filter_In in Hrd as [_ Hrd]. simpl.
  destruct (pad_row_app (max_list (length <$> List.filter (existsb truthy) built)) rd)
    as [n ->].
  by rewrite existsb_app, Hrd.
Qed.

(** X10: every sheet that a run hands to the writer has a column and a
    data row at least, and each of its data rows holds a true value: no
    blank row reaches the output. *)
Theorem sheets_have_columns_and_no_blank_row
    parse write_sheets xml_file xlsx_file path worksheets name df :
  writer_call (parse_excel_xml parse write_sheets xml_file xlsx_file) = Some (path, worksheets) ->
  (name, df) ∈ worksheets ->
  columns df <> [] /\ data df <> [] /\
  Forall (fun r => exists v, v ∈ r /\ truthy v = true) (data df).
Proof.
  intros Hcall Hin.
  apply parse_excel_xml_written in Hcall as (_ & _ & root & _ & Hwss).
  destruct (collect_worksheets_sound _ _ Hwss _ _ Hin)
    as (w & table & grid & _ & _ & _ & Hn & Hdf).
  apply normalize_rows_true in Hn.
  apply make_sheet_Some in Hdf as (headers & rest & -> & Hrest & ->). simpl.
  apply Forall_cons in Hn as [Hheaders Hn]. split; [|split; [done|]].
  - intros Hnil. apply (f_equal length) in Hnil. rewrite length_make_headers in Hnil.
    destruct headers; [done|done].
  - eapply Forall_impl; [exact Hn|]. intros r. apply existsb_truthy_spec.
Qed.

(** ** Headers *)

Lemma str_int_inj a b : str_int a = str_int b -> a = b.
Proof.
  unfold str_int. intros H.
  assert (forall z, NilZero.int_of_string (NilZero.string_of_int (Z.to_int z))
                    = Some (Z.to_int z)) as Hisi.
  { intros z. apply NilZero.isi; destruct z; simpl; try discriminate;
      intros [= Hp]; by apply DecimalPos.Unsigned.to_uint_nonnil in Hp. }
  apply (f_equal NilZero.int_of_string) in H. rewrite !Hisi in H. injection H as H.
  by rewrite <- (DecimalZ.of_to a), <- (DecimalZ.of_to b), H.
Qed.

(** X11: two names that the header gives to false values (empty strings,
    zero numbers) of the first row differ from each other. *)
Theorem placeholder_names_differ (headers : list value) (i j : nat) (hi hj : value) :
  i <> j -> headers !! i = Some hi -> headers !! j = Some hj ->
  truthy hi = false -> truthy hj = false ->
  exists ni nj,
    make_headers headers !! i = Some ni /\ make_headers headers !! j = Some nj /\
    ni <> nj.
Proof.
  intros Hij Hi Hj Hfi Hfj. unfold make_headers.
  rewrite !list_lookup_imap, Hi, Hj. simpl. rewrite Hfi, Hfj.
  eexists _, _. split; [done|]. split; [done|].
  intros [= H%str_int_inj]. lia.
Qed.

(** ** Values *)

Lemma coerce_Number txt : exists f, coerce "Number" txt = Ok (VFloat f).
Proof.
  unfold coerce. rewrite bool_decide_eq_true_2 by done.
  destruct (str_truthy txt); simpl; [|eauto].
  destruct (float txt) as [f|e] eqn:Hf; simpl; [eauto|].
  rewrite (float_raises_ValueError _ _ Hf). simpl. eauto.
Qed.

Lemma coerce_not_Number type txt v :
  type <> "Number" -> coerce type txt = Ok v -> exists s, v = VStr s.
Proof.
  intros Hty. unfold coerce. rewrite bool_decide_eq_false_2 by done.
  case_bool_decide; [|intros [= <-]; eauto].
  destruct (_ && _); [|intros [= <-]; eauto].
  destruct (split "T" txt); intros [= <-]; eauto.
Qed.

(** X12: the value of a cell is a number when its [Data] element declares
    the type [Number], whatever its text, and a string in every other
    case: with another type, without a type, without a [Data] element. *)
Theorem value_is_a_number_iff_declared_Number (cell : element) (v : value) :
  cell_value cell = Ok v ->
  ((exists f, v = VFloat f) <->
   (exists d, find cell (ss "Data") = Some d /\ get d (ss "Type") = Some "Number")).
Proof.
  unfold cell_value. intros Hv.
  destruct (decide (data_type (find cell (ss "Data")) = "Number")) as [Hty|Hty].
  - rewrite Hty in Hv. destruct (coerce_Number (data_text (find cell (ss "Data")))) as [f Hf].
    rewrite Hf in Hv. injection Hv as <-. split; [intros _|by eauto].
    unfold data_type, get_or in Hty. destruct (find cell (ss "Data")) as [d|]; [|done].
    exists d. split; [done|]. by destruct (get d (ss "Type")) as [ty|]; simpl in Hty; subst.
  - destruct (coerce_not_Number _ _ _ Hty Hv) as [s ->]. split; [by intros [f ?]|].
    intros (d & Hd & Hnum). destruct Hty. unfold data_type, get_or. by rewrite Hd, Hnum.
Qed.

(** X13: converting a converted date again changes nothing: what the
    conversion of a [DateTime] text gives is a text that the conversion
    leaves as it is. *)
Theorem date_conversion_is_idempotent (txt : string) (v : value) :
  coerce "DateTime" txt = Ok v ->
  exists s, v = VStr s /\ coerce "DateTime" s = Ok (VStr s).
Proof.
  intros Hv.
  assert (forall s, ("T"%char ∉ chars s) -> coerce "DateTime" s = Ok (VStr s)) as Hclean.
  { intros s Hs. apply coerce_DateTime_other. intros (a & b & ->). apply Hs.
    rewrite chars_app. apply elem_of_app. right. by left. }
  destruct (contains "T00:00:00" txt) eqn:Hc.
  - apply contains_spec in Hc.
    destruct (coerce_DateTime_midnight _ Hc) as (date & rest & _ & Hdate & Hv').
    rewrite Hv' in Hv. injection Hv as <-. exists date. split; [done|by apply Hclean].
  - assert (~ exists a b, txt = a +:+ "T00:00:00" +:+ b) as Hno.
    { intros H%contains_spec. congruence. }
    pose proof (coerce_DateTime_other _ Hno) as Hv'.
    rewrite Hv' in Hv. injection Hv as <-. by exists txt.
Qed.

(** ** Sheets that are written *)

Lemma make_sheet_of_long grid :
  (2 <= length grid)%nat -> exists df, make_sheet grid = Some df.
Proof. destruct grid as [|headers [|r rest]]; simpl; [lia|lia|eauto]. Qed.

(** The name of a worksheet that has a sheet is among the collected
    names. *)
Lemma collect_worksheets_complete root worksheets worksheet table grid :
  collect_worksheets root = Ok worksheets ->
  worksheet ∈ findall root (ss "Worksheet") ->
  find worksheet (ss "Table") = Some table ->
  normalize table = Ok grid -> (2 <= length grid)%nat ->
  get_or worksheet (ss "Name") "Sheet" ∈ worksheets.*1.
Proof.
  intros Hrun Hw Ht Hn Hlen. unfold collect_worksheets in Hrun.
  apply list_elem_of_split in Hw as (before & after & Hsplit).
  rewrite Hsplit, for_each_app in Hrun.
  apply bind_Ok_inv in Hrun as (wss0 & _ & Hrun).
  rewrite for_each_cons in Hrun. apply bind_Ok_inv in Hrun as (wss1 & Hstep & Hrun).
  destruct (make_sheet_of_long _ Hlen) as [df Hdf].
  unfold worksheet_step in Hstep. rewrite Ht in Hstep. simpl in Hstep.
  rewrite Hn in Hstep. simpl in Hstep. rewrite Hdf in Hstep. injection Hstep as <-.
  destruct (worksheets_loop_names _ _ _ Hrun) as (added & -> & _ & _).
  apply elem_of_app. left. rewrite dict_set_keys.
  case_bool_decide; [done|]. apply elem_of_app. right. by left.
Qed.

(** X14: when the worksheets of a document are collected, every
    worksheet that has a table with a grid of two rows or more has its
    name (or [Sheet], without one) among the names of the sheets. *)
Theorem no_sheet_name_is_lost
    (root : element) (worksheets : list (string * DataFrame))
    (worksheet table : element) (grid : list (list value)) :
  collect_worksheets root = Ok worksheets ->
  worksheet ∈ findall root (ss "Worksheet") ->
  find worksheet (ss "Table") = Some table ->
  normalize table = Ok grid -> (2 <= length grid)%nat ->
  default "Sheet" (get worksheet (ss "Name")) ∈ worksheets.*1.
Proof. apply collect_worksheets_complete. Qed.

(** X15: when a document parses, its worksheets are collected and one of
    them has a table with a grid of two rows or more, the run hands the
    collected sheets to the writer with the output path; it then prints
    the confirmation and returns [True] if the writer succeeds, and prints
    the error of the writer and returns [False] if it fails. *)
Theorem run_writes_the_collected_sheets
    parse write_sheets xml_file xlsx_file
    (root : element) (worksheets : list (string * DataFrame))
    (worksheet table : element) (grid : list (list value)) :
  parse xml_file = Ok root ->
  collect_worksheets root = Ok worksheets ->
  worksheet ∈ findall root (ss "Worksheet") ->
  find worksheet (ss "Table") = Some table ->
  normalize table = Ok grid -> (2 <= length grid)%nat ->
  parse_excel_xml parse write_sheets xml_file xlsx_file
  = match write_sheets xlsx_file worksheets with
    | Ok _ => {| writer_call := Some (xlsx_file, worksheets);
                 printed := Converted xml_file xlsx_file;
                 returned := true |}
    | Raise e => {| writer_call := Some (xlsx_file, worksheets);
                    printed := ErrorConverting e;
                    returned := false |}
    end.
Proof.
  intros Hroot Hwss Hw Ht Hn Hlen.
  pose proof (collect_worksheets_complete _ _ _ _ _ Hwss Hw Ht Hn Hlen) as Hin.
  unfold parse_excel_xml. rewrite Hroot. simpl. rewrite Hwss.
  rewrite bool_decide_eq_false_2; [done|]. intros ->. by apply elem_of_nil in Hin.
Qed.

(** ** The properties on the sample documents *)

(** A missing input stops the command; the sheet of [people] is written
    for an input that is a file. *)
Lemma command_writes_only_what_it_read_witness :
  main (fun _ => false) (fun _ => Ok people) (fun _ _ => Ok ()) "in.xml" "out.xlsx"
  = InputMissing "in.xml" /\
  exists worksheets,
    written (main (fun _ => true) (fun _ => Ok people) (fun _ _ => Ok ()) "in.xml" "out.xlsx")
    = Some ("out.xlsx", worksheets) /\
    exists root worksheet table grid,
      Ok people = Ok root /\ collect_worksheets root = Ok worksheets /\
      worksheet ∈ findall root (ss "Worksheet") /\
      find worksheet (ss "Table") = Some table /\
      normalize table = Ok grid /\ (2 <= length grid)%nat.
Proof.
  split.
  - by apply (proj1 (command_writes_only_what_it_read
                       (fun _ => false) (fun _ => Ok people) (fun _ _ => Ok ())
                       "in.xml" "out.xlsx")).
  - eexists. split; [vm_compute; reflexivity|].
    apply (proj2 (command_writes_only_what_it_read
                    (fun _ => true) (fun _ => Ok people) (fun _ _ => Ok ())
                    "in.xml" "out.xlsx") "out.xlsx").
    vm_compute. reflexivity.
Defined.

(** The bad [Index] of the second sheet of [spoiled] stops the run, and
    the first sheet is not written. *)
Lemma one_error_stops_the_run_witness :
  exists s,
    parse_excel_xml (fun _ => Ok spoiled) (fun _ _ => Ok ()) "in.xml" "out.xlsx"
    = {| writer_call := None;
         printed := ErrorConverting (InvalidIntLiteral s);
         returned := false |}.
Proof.
  apply (proj2 (one_error_stops_the_run (fun _ => Ok spoiled) (fun _ _ => Ok ())
                  "in.xml" "out.xlsx")
           spoiled (Worksheet (Some "Bad") [bad_index]) bad_index
           (Row [text_cell (Some "abc") "x"]) (text_cell (Some "abc") "x")
           "abc" (InvalidIntLiteral "abc")).
  - reflexivity.
  - change (Worksheet (Some "Bad") [bad_index]
            ∈ [city_sheet; Worksheet (Some "Bad") [bad_index]]).
    right. left.
  - vm_compute. reflexivity.
  - change (Row [text_cell (Some "abc") "x"] ∈ [Row [text_cell (Some "abc") "x"]]). left.
  - change (text_cell (Some "abc") "x" ∈ [text_cell (Some "abc") "x"]). left.
  - vm_compute. reflexivity.
  - discriminate.
  - vm_compute. reflexivity.
Defined.

(** The sheets of [twice] are [Data] and [Sheet], in this order. *)
Lemma sheet_names_are_distinct_and_in_document_order_witness :
  exists worksheets root,
    writer_call (parse_excel_xml (fun _ => Ok twice) (fun _ _ => Ok ()) "in.xml" "out.xlsx")
    = Some ("out.xlsx", worksheets) /\
    worksheets.*1 = ["Data"; "Sheet"] /\
    Ok twice = Ok root /\ NoDup worksheets.*1 /\
    worksheets.*1 `sublist_of`
      ((fun w => default "Sheet" (get w (ss "Name"))) <$> findall root (ss "Worksheet")).
Proof.
  set (wss := [("Data", {| columns := ["Year"]; data := [[VStr "1999"]] |});
               ("Sheet", {| columns := ["Name"]; data := [[VStr "Bob"]] |})]).
  destruct (sheet_names_are_distinct_and_in_document_order
              (fun _ => Ok twice) (fun _ _ => Ok ()) "in.xml" "out.xlsx" "out.xlsx" wss)
    as (root & Hroot & Hnodup & Hsub); [vm_compute; reflexivity|].
  exists wss, root. split; [vm_compute; reflexivity|]. split; [reflexivity|].
  split; [exact Hroot|]. split; [exact Hnodup|exact Hsub].
Defined.

(** Of the two sheets [Data] of [twice] the second one is collected. *)
Lemma last_worksheet_of_a_name_wins_witness :
  exists worksheets,
    collect_worksheets twice = Ok worksheets /\
    ("Data", {| columns := ["Year"]; data := [[VStr "1999"]] |}) ∈ worksheets.
Proof.
  set (wss := [("Data", {| columns := ["Year"]; data := [[VStr "1999"]] |});
               ("Sheet", {| columns := ["Name"]; data := [[VStr "Bob"]] |})]).
  exists wss. split; [vm_compute; reflexivity|].
  apply (last_worksheet_of_a_name_wins twice wss [city_sheet; nameless_sheet] year_sheet []
           (Table [Row [text_cell None "Year"]; Row [text_cell None "1999"]])
           [[VStr "Year"]; [VStr "1999"]]).
  - vm_compute. reflexivity.
  - reflexivity.
  - vm_compute. reflexivity.
  - vm_compute. reflexivity.
  - vm_compute. reflexivity.
  - intros w table' grid' Hw. by apply elem_of_nil in Hw.
Defined.

(** The sheet [Data] of [people] comes from its worksheet. *)
Lemma sheets_come_from_worksheets_witness :
  exists root worksheet table headers rest,
    Ok people = Ok root /\
    worksheet ∈ findall root (ss "Worksheet") /\
    "Data" = default "Sheet" (get worksheet (ss "Name")) /\
    find worksheet (ss "Table") = Some table /\
    normalize table = Ok (headers :: rest) /\ rest <> [] /\
    ["Name"; "Age"] = make_headers headers /\
    [[VStr "Alice"; VFloat (S754_finite false 8444249301319680 (-48))]] = rest.
Proof.
  set (wss := [("Data", {| columns := ["Name"; "Age"];
                            data := [[VStr "Alice";
                                      VFloat (S754_finite false 8444249301319680 (-48))]] |})]).
  apply (sheets_come_from_worksheets (fun _ => Ok people) (fun _ _ => Ok ())
           "in.xml" "out.xlsx" "out.xlsx" wss "Data"
           {| columns := ["Name"; "Age"];
              data := [[VStr "Alice"; VFloat (S754_finite false 8444249301319680 (-48))]] |}).
  - vm_compute. reflexivity.
  - left.
Defined.

(** The values [a], [b] and [e] of [sparse_row] stand in this order. *)
Lemma cells_keep_their_order_witness :
  exists gaps vs,
    Forall2 (fun cell v => cell_value cell = Ok v) (findall sparse_row (ss "Cell")) vs /\
    length gaps = length vs /\
    [VStr "a"; VStr "b"; VStr ""; VStr ""; VStr "e"]
    = concat (zip_with (fun gap v => replicate gap (VStr "") ++ [v]) gaps vs).
Proof.
  apply (cells_keep_their_order sparse_row). vm_compute. reflexivity.
Defined.

(** The value [e], declared at the position 5 of [sparse_row], stands in
    the place 4 of the row. *)
Lemma declared_position_is_the_column_witness :
  [VStr "a"; VStr "b"; VStr ""; VStr ""; VStr "e"] !! 4%nat = Some (VStr "e").
Proof.
  destruct (declared_position_is_the_column sparse_row
              [VStr "a"; VStr "b"; VStr ""; VStr ""; VStr "e"]
              [text_cell None "a"; text_cell None "b"] [] (text_cell (Some "5") "e") "5" 5)
    as (row_before & v & Hbefore & Hv & Hplace);
    [vm_compute; reflexivity|reflexivity|vm_compute; reflexivity|discriminate
    |vm_compute; reflexivity|].
  vm_compute in Hbefore. injection Hbefore as <-.
  vm_compute in Hv. injection Hv as <-.
  apply Hplace. simpl. lia.
Defined.

(** The first row of [people_table] declares no position. *)
Lemma dense_row_is_its_values_witness :
  exists row_data,
    build_row (Row [text_cell None "Name"; text_cell None "Age"]) = Ok row_data /\
    Forall2 (fun cell v => cell_value cell = Ok v)
            (findall (Row [text_cell None "Name"; text_cell None "Age"]) (ss "Cell")) row_data.
Proof.
  apply dense_row_is_its_values. intros cell s Hcell.
  change (cell ∈ [text_cell None "Name"; text_cell None "Age"]) in Hcell.
  repeat (apply elem_of_cons in Hcell as [->|Hcell]); [| |by apply elem_of_nil in Hcell];
    vm_compute; discriminate.
Defined.

(** The grid of [people_table] is its two kept rows. *)
Lemma padding_only_appends_empty_strings_witness :
  exists grid,
    normalize people_table = Ok grid /\
    Forall2 (fun rd g => exists n, g = rd ++ replicate n (VStr ""))
            [[VStr "Name"; VStr "Age"];
             [VStr "Alice"; VFloat (S754_finite false 8444249301319680 (-48))]] grid.
Proof.
  apply (padding_only_appends_empty_strings people_table
           [[VStr "Name"; VStr "Age"];
            [VStr "Alice"; VFloat (S754_finite false 8444249301319680 (-48))];
            [VStr ""; VStr ""]]).
  repeat constructor.
Defined.

(** The sheet of [people] has columns and a row with a true value. *)
Lemma sheets_have_columns_and_no_blank_row_witness :
  let df := {| columns := ["Name"; "Age"];
               data := [[VStr "Alice"; VFloat (S754_finite false 8444249301319680 (-48))]] |} in
  columns df <> [] /\ data df <> [] /\
  Forall (fun r => exists v, v ∈ r /\ truthy v = true) (data df).
Proof.
  intros df.
  apply (sheets_have_columns_and_no_blank_row (fun _ => Ok people) (fun _ _ => Ok ())
           "in.xml" "out.xlsx" "out.xlsx" [("Data", df)] "Data" df).
  - vm_compute. reflexivity.
  - left.
Defined.

(** An empty string and a zero get the names [Column1] and [Column2]. *)
Lemma placeholder_names_differ_witness :
  exists ni nj,
    make_headers [VStr ""; VFloat (S754_zero false); VStr "x"] !! 0%nat = Some ni /\
    make_headers [VStr ""; VFloat (S754_zero false); VStr "x"] !! 1%nat = Some nj /\
    ni <> nj.
Proof.
  apply (placeholder_names_differ _ 0 1 (VStr "") (VFloat (S754_zero false)));
    [lia|reflexivity|reflexivity|reflexivity|reflexivity].
Defined.

(** A midnight is cut once. *)
Lemma date_conversion_is_idempotent_witness :
  exists s, VStr "2024-01-05" = VStr s /\ coerce "DateTime" s = Ok (VStr s).
Proof.
  apply (date_conversion_is_idempotent "2024-01-05T00:00:00"). vm_compute. reflexivity.
Defined.

(** [n/a] in a [Number] cell is a number. *)
Lemma value_is_a_number_iff_declared_Number_witness :
  (exists f, VFloat (S754_zero false) = VFloat f) <->
  (exists d, find (typed_cell "Number" "n/a") (ss "Data") = Some d /\
             get d (ss "Type") = Some "Number").
Proof.
  apply value_is_a_number_iff_declared_Number. vm_compute. reflexivity.
Defined.

(** The name of the first sheet of [twice] is kept, though the sheet is
    not. *)
Lemma no_sheet_name_is_lost_witness :
  exists worksheets,
    collect_worksheets twice = Ok worksheets /\
    default "Sheet" (get city_sheet (ss "Name")) ∈ worksheets.*1.
Proof.
  set (wss := [("Data", {| columns := ["Year"]; data := [[VStr "1999"]] |});
               ("Sheet", {| columns := ["Name"]; data := [[VStr "Bob"]] |})]).
  exists wss. split; [vm_compute; reflexivity|].
  apply (no_sheet_name_is_lost twice wss city_sheet
           (Table [Row [text_cell None "City"]; Row [text_cell None "Paris"]])
           [[VStr "City"]; [VStr "Paris"]]).
  - vm_compute. reflexivity.
  - change (city_sheet ∈ [city_sheet; nameless_sheet; year_sheet]). left.
  - vm_compute. reflexivity.
  - vm_compute. reflexivity.
  - simpl. lia.
Defined.

(** The run on [people] with a writer that fails. *)
Lemma run_writes_the_collected_sheets_witness :
  exists worksheets,
    parse_excel_xml (fun _ => Ok people) (fun _ _ => Raise (Other "OSError" "disk full"))
                    "in.xml" "out.xlsx"
    = {| writer_call := Some ("out.xlsx", worksheets);
         printed := ErrorConverting (Other "OSError" "disk full");
         returned := false |}.
Proof.
  set (wss := [("Data", {| columns := ["Name"; "Age"];
                            data := [[VStr "Alice";
                                      VFloat (S754_finite false 8444249301319680 (-48))]] |})]).
  exists wss.
  apply (run_writes_the_collected_sheets
           (fun _ => Ok people) (fun _ _ => Raise (Other "OSError" "disk full"))
           "in.xml" "out.xlsx" people wss (Worksheet (Some "Data") [people_table]) people_table
           [[VStr "Name"; VStr "Age"];
            [VStr "Alice"; VFloat (S754_finite false 8444249301319680 (-48))]]).
  - reflexivity.
  - vm_compute. reflexivity.
  - change (Worksheet (Some "Data") [people_table] ∈ [Worksheet (Some "Data") [people_table]]).
    left.
  - vm_compute. reflexivity.
  - vm_compute. reflexivity.
  - simpl. lia.
Defined.
